(** * MATHION: the quiz session and its high-score table

    A shallow embedding of [src/index.tsx].  The React component [App] is a
    bundle of state cells ([useState]) and of handlers that write them; here
    the cells are the fields of the record [App], every handler is a function
    on that record, and the browser around the component (the storage entry,
    the requests in flight, the alerts shown) is the record [Browser].

    React renders the component between two events, so a handler reads the
    cells as the event before it left them, and the writes of one handler
    show together.  An [async] handler is two functions: the part before its
    [await], and the part after it, which runs when the request settles.
    Numbers are integers ([Z]): scores and indices are counts, dates are
    milliseconds.  [localStorage] is taken to be readable; a write to it may
    fail. *)

From Stdlib Require Import ZArith List Bool Lia String Ascii.
From Stdlib Require Import Sorting.Sorted Sorting.Permutation.
From Stdlib Require Import QArith.QArith_base QArith.Qreduction.
From Stdlib Require Import Numbers.DecimalString.
Import ListNotations.

Local Open Scope Z_scope.
Set Warnings "-register-all,-notation-for-abbreviation".

(** ** JavaScript strings and the built-ins the component calls *)

Module JS.

(** A JavaScript string is a sequence of UTF-16 code units. *)
Definition jsstring : Type := list Z.

(** A literal of the source, written with the characters of Basic Latin. *)
Definition lit (s : string) : jsstring :=
  map (fun a => Z.of_N (N_of_ascii a)) (list_ascii_of_string s).

(** [a === b] on two strings: the same code units in the same order. *)
Fixpoint str_eqb (a b : jsstring) : bool :=
  match a, b with
  | [], [] => true
  | x :: a', y :: b' => (x =? y) && str_eqb a' b'
  | _, _ => false
  end.

(** A string is falsy exactly when it is empty. *)
Definition truthy (s : jsstring) : bool :=
  match s with [] => false | _ :: _ => true end.

(** The code units [String.prototype.trim] strips: WhiteSpace and
    LineTerminator of ECMA-262. *)
Definition isWhiteSpace (c : Z) : bool :=
  ((9 <=? c) && (c <=? 13))
  || (c =? 32) || (c =? 160) || (c =? 5760)
  || ((8192 <=? c) && (c <=? 8202))
  || (c =? 8232) || (c =? 8233) || (c =? 8239) || (c =? 8287)
  || (c =? 12288) || (c =? 65279).

Fixpoint trimStart (s : jsstring) : jsstring :=
  match s with
  | c :: s' => if isWhiteSpace c then trimStart s' else s
  | [] => []
  end.

Definition trimEnd (s : jsstring) : jsstring := rev (trimStart (rev s)).

Definition trim (s : jsstring) : jsstring := trimEnd (trimStart s).

(** What [toLowerCase] does to a code unit of Basic Latin. *)
Definition lowerLatin (c : Z) : Z :=
  if (65 <=? c) && (c <=? 90) then c + 32 else c.

Definition isLatin (c : Z) : bool := (0 <=? c) && (c <? 128).

(** [Array.prototype.slice(0, n)] for [0 <= n]. *)
Definition slice0 {A} (n : nat) (l : list A) : list A := firstn n l.

(** [a[i]]: [None] stands for [undefined]. *)
Definition index {A} (l : list A) (i : Z) : option A :=
  if i <? 0 then None else nth_error l (Z.to_nat i).

(** [Array.prototype.sort(cmp)].  The sort is stable and puts [a] before
    [b] when [cmp a b < 0]; with a comparator that is a consistent order the
    result does not depend on the engine's algorithm.  [insert] places an
    element that stood to the left of all of [l]. *)
Section Sort.
Context {A : Type} (cmp : A -> A -> Z).

Fixpoint insert (x : A) (l : list A) : list A :=
    match l with
    | [] => [x]
    | y :: l' => if cmp x y <=? 0 then x :: l else y :: insert x l'
    end.

Definition sort (l : list A) : list A := fold_right insert [] l.
End Sort.

(** Decimal digits of an integer, as [String(n)] prints it. *)
Definition ofInt (n : Z) : jsstring := lit (NilZero.string_of_int (Z.to_int n)).

(** The values [JSON.parse] can return. *)
Inductive JSON : Type :=
| JNull
| JBool (b : bool)
| JNumber (x : Q)
| JString (s : jsstring)
| JArray (items : list JSON)
| JObject (fields : list (jsstring * JSON)).

Definition isArray (v : JSON) : bool :=
  match v with JArray _ => true | _ => false end.

(** [o.key]: the first field of that name. *)
Fixpoint field (key : jsstring) (fields : list (jsstring * JSON)) : option JSON :=
  match fields with
  | [] => None
  | (k, v) :: rest => if str_eqb k key then Some v else field key rest
  end.

Definition asInt (v : JSON) : option Z :=
  match v with
  | JNumber x => let r := Qred x in
                 if (Qden r =? 1)%positive then Some (Qnum r) else None
  | _ => None
  end.

End JS.
Import JS.

(** ** Data model *)

Definition QUIZ_LENGTH : Z := 5.

Inductive QuizState := Idle | Loading | Active | Feedback | Finished.
Inductive Category := Arithmetic | Geometry | Algebra | Mixed.
Inductive Difficulty := Easy | Medium | Hard.

Record Question := { question : jsstring; answer : jsstring }.

Module HighScore.
Record t := make { score : Z; category : Category; difficulty : Difficulty; date : Z }.
End HighScore.

(** The value of the [feedback] cell. *)
Record Verdict := { message : jsstring; correct : bool }.

(** The state cells of the component, in the order of their [useState]. *)
Record App := mkApp {
  quizState : QuizState;
  category : option Category;
  difficulty : option Difficulty;
  questions : list Question;
  currentQuestionIndex : Z;
  userAnswer : jsstring;
  feedback : option Verdict;
  score : Z;
  hintCoins : Z;
  hint : option jsstring;
  isHintLoading : bool;
  hintUsed : bool;
  highScores : list HighScore.t;
  scoreSaved : bool
}.

(** The first render. *)
Definition initialApp : App :=
  {| quizState := Idle; category := None; difficulty := None; questions := [];
     currentQuestionIndex := 0; userAnswer := []; feedback := None; score := 0;
     hintCoins := 3; hint := None; isHintLoading := false; hintUsed := false;
     highScores := []; scoreSaved := false |}.

(** The setters: each writes one cell. *)
Definition setQuizState v (s : App) : App :=
  mkApp v (category s) (difficulty s) (questions s) (currentQuestionIndex s) (userAnswer s) (feedback s)
        (score s) (hintCoins s) (hint s) (isHintLoading s) (hintUsed s) (highScores s) (scoreSaved s).
Definition setCategory v (s : App) : App :=
  mkApp (quizState s) v (difficulty s) (questions s) (currentQuestionIndex s) (userAnswer s) (feedback s)
        (score s) (hintCoins s) (hint s) (isHintLoading s) (hintUsed s) (highScores s) (scoreSaved s).
Definition setDifficulty v (s : App) : App :=
  mkApp (quizState s) (category s) v (questions s) (currentQuestionIndex s) (userAnswer s) (feedback s)
        (score s) (hintCoins s) (hint s) (isHintLoading s) (hintUsed s) (highScores s) (scoreSaved s).
Definition setQuestions v (s : App) : App :=
  mkApp (quizState s) (category s) (difficulty s) v (currentQuestionIndex s) (userAnswer s) (feedback s)
        (score s) (hintCoins s) (hint s) (isHintLoading s) (hintUsed s) (highScores s) (scoreSaved s).
Definition setCurrentQuestionIndex v (s : App) : App :=
  mkApp (quizState s) (category s) (difficulty s) (questions s) v (userAnswer s) (feedback s)
        (score s) (hintCoins s) (hint s) (isHintLoading s) (hintUsed s) (highScores s) (scoreSaved s).
Definition setUserAnswer v (s : App) : App :=
  mkApp (quizState s) (category s) (difficulty s) (questions s) (currentQuestionIndex s) v (feedback s)
        (score s) (hintCoins s) (hint s) (isHintLoading s) (hintUsed s) (highScores s) (scoreSaved s).
Definition setFeedback v (s : App) : App :=
  mkApp (quizState s) (category s) (difficulty s) (questions s) (currentQuestionIndex s) (userAnswer s) v
        (score s) (hintCoins s) (hint s) (isHintLoading s) (hintUsed s) (highScores s) (scoreSaved s).
Definition setScore v (s : App) : App :=
  mkApp (quizState s) (category s) (difficulty s) (questions s) (currentQuestionIndex s) (userAnswer s) (feedback s)
        v (hintCoins s) (hint s) (isHintLoading s) (hintUsed s) (highScores s) (scoreSaved s).
Definition setHintCoins v (s : App) : App :=
  mkApp (quizState s) (category s) (difficulty s) (questions s) (currentQuestionIndex s) (userAnswer s) (feedback s)
        (score s) v (hint s) (isHintLoading s) (hintUsed s) (highScores s) (scoreSaved s).
Definition setHint v (s : App) : App :=
  mkApp (quizState s) (category s) (difficulty s) (questions s) (currentQuestionIndex s) (userAnswer s) (feedback s)
        (score s) (hintCoins s) v (isHintLoading s) (hintUsed s) (highScores s) (scoreSaved s).
Definition setIsHintLoading v (s : App) : App :=
  mkApp (quizState s) (category s) (difficulty s) (questions s) (currentQuestionIndex s) (userAnswer s) (feedback s)
        (score s) (hintCoins s) (hint s) v (hintUsed s) (highScores s) (scoreSaved s).
Definition setHintUsed v (s : App) : App :=
  mkApp (quizState s) (category s) (difficulty s) (questions s) (currentQuestionIndex s) (userAnswer s) (feedback s)
        (score s) (hintCoins s) (hint s) (isHintLoading s) v (highScores s) (scoreSaved s).
Definition setHighScores v (s : App) : App :=
  mkApp (quizState s) (category s) (difficulty s) (questions s) (currentQuestionIndex s) (userAnswer s) (feedback s)
        (score s) (hintCoins s) (hint s) (isHintLoading s) (hintUsed s) v (scoreSaved s).
Definition setScoreSaved v (s : App) : App :=
  mkApp (quizState s) (category s) (difficulty s) (questions s) (currentQuestionIndex s) (userAnswer s) (feedback s)
        (score s) (hintCoins s) (hint s) (isHintLoading s) (hintUsed s) (highScores s) v.

(** [s |> f |> g]: the writes of a handler, in source order. *)
Notation "s |> f" := (f s) (at level 45, left associativity, only parsing).

(** The page around the component: the entry ['mathQuizHighScores'] of
    [localStorage] ([None] when there is none), the messages shown by [alert],
    oldest first, the requests for a batch of questions not yet answered, each
    with the category and the difficulty of its prompt, and the hint requests
    not yet answered, each with the text of its problem. *)
Record Browser := mkBrowser {
  app : App;
  localStorage : option jsstring;
  alerts : list jsstring;
  quizRequests : list (Category * Difficulty);
  hintRequests : list jsstring
}.

Definition withApp (f : App -> App) (b : Browser) : Browser :=
  mkBrowser (f (app b)) (localStorage b) (alerts b) (quizRequests b) (hintRequests b).

(** ** The stored form of the table *)

Definition categoryName (c : Category) : jsstring :=
  match c with
  | Arithmetic => lit "Arithmetic" | Geometry => lit "Geometry"
  | Algebra => lit "Algebra" | Mixed => lit "Mixed"
  end.

Definition difficultyName (d : Difficulty) : jsstring :=
  match d with Easy => lit "Easy" | Medium => lit "Medium" | Hard => lit "Hard" end.

Definition quoted (s : jsstring) : jsstring := [34] ++ s ++ [34].

Fixpoint commaJoin (l : list jsstring) : jsstring :=
  match l with
  | [] => []
  | [x] => x
  | x :: rest => x ++ lit "," ++ commaJoin rest
  end.

Definition stringifyHighScore (h : HighScore.t) : jsstring :=
  lit "{" ++ quoted (lit "score") ++ lit ":" ++ ofInt (HighScore.score h) ++ lit ","
          ++ quoted (lit "category") ++ lit ":" ++ quoted (categoryName (HighScore.category h)) ++ lit ","
          ++ quoted (lit "difficulty") ++ lit ":" ++ quoted (difficultyName (HighScore.difficulty h)) ++ lit ","
          ++ quoted (lit "date") ++ lit ":" ++ ofInt (HighScore.date h) ++ lit "}".

(** [JSON.stringify] of a [HighScore[]]. *)
Definition JSON_stringify (hs : list HighScore.t) : jsstring :=
  lit "[" ++ commaJoin (map stringifyHighScore hs) ++ lit "]".

(** The parsed values that are a [HighScore[]]: an array of objects with an
    integer [score], a [category] and a [difficulty] of the two unions, and an
    integer [date]. *)
Definition asCategory (v : JSON) : option Category :=
  match v with
  | JString s =>
      if str_eqb s (lit "Arithmetic") then Some Arithmetic
      else if str_eqb s (lit "Geometry") then Some Geometry
      else if str_eqb s (lit "Algebra") then Some Algebra
      else if str_eqb s (lit "Mixed") then Some Mixed
      else None
  | _ => None
  end.

Definition asDifficulty (v : JSON) : option Difficulty :=
  match v with
  | JString s =>
      if str_eqb s (lit "Easy") then Some Easy
      else if str_eqb s (lit "Medium") then Some Medium
      else if str_eqb s (lit "Hard") then Some Hard
      else None
  | _ => None
  end.

Definition bind {A B} (o : option A) (f : A -> option B) : option B :=
  match o with Some a => f a | None => None end.

Definition asHighScore (v : JSON) : option HighScore.t :=
  match v with
  | JObject fs =>
      bind (bind (field (lit "score") fs) asInt) (fun sc =>
      bind (bind (field (lit "category") fs) asCategory) (fun c =>
      bind (bind (field (lit "difficulty") fs) asDifficulty) (fun d =>
      bind (bind (field (lit "date") fs) asInt) (fun t =>
      Some (HighScore.make sc c d t)))))
  | _ => None
  end.

Fixpoint allSome {A} (l : list (option A)) : option (list A) :=
  match l with
  | [] => Some []
  | Some a :: rest => bind (allSome rest) (fun r => Some (a :: r))
  | None :: _ => None
  end.

Definition asHighScores (v : JSON) : option (list HighScore.t) :=
  match v with
  | JArray items => allSome (map asHighScore items)
  | _ => None
  end.

(** ** The handlers *)

(** What the generation request comes back with, once [response.text] went
    through [JSON.parse]: [Failed] when the request is rejected or the text
    is not JSON, otherwise [responseJson.questions], [None] when the property
    is absent.  The [responseSchema] of the request makes it a [Question[]]. *)
Inductive Response :=
| Failed
| Parsed (responseJson_questions : option (list Question)).

(** What the user and the network can do to the page.  [SaveScore] carries
    what [Date.now()] returns and whether [localStorage.setItem] succeeds (it
    throws when the quota is exceeded); [HintSettled] carries the text of the
    response, [None] when the request is rejected. *)
Inductive Event :=
| SelectCategory (c : Category)
| BackToCategories
| SelectDifficulty (d : Difficulty)
| QuestionsSettled (r : Response)
| ChangeAnswer (value : jsstring)
| GetHint
| HintSettled (r : option jsstring)
| SubmitAnswer
| NextQuestion
| SaveScore (now : Z) (stored : bool)
| PlayAgain
| ClearScores.

(** The comparator of [handleSaveScore]:
    [(a, b) => b.score - a.score || b.date - a.date]. *)
Definition compareScores (a b : HighScore.t) : Z :=
  let byScore := HighScore.score b - HighScore.score a in
  if byScore =? 0 then HighScore.date b - HighScore.date a else byScore.

Definition handleCategorySelect (selectedCategory : Category) (s : App) : App :=
  s |> setCategory (Some selectedCategory).

Definition resetQuiz (s : App) : App :=
  s |> setQuizState Idle
    |> setCategory None
    |> setDifficulty None
    |> setQuestions []
    |> setCurrentQuestionIndex 0
    |> setUserAnswer []
    |> setFeedback None
    |> setScore 0
    |> setHintCoins 3
    |> setHint None
    |> setHintUsed false
    |> setScoreSaved false.

Definition generationAlert : jsstring :=
  lit "Sorry, there was an error generating the quiz. Please try again.".

Definition hintApology : jsstring :=
  lit "Sorry, couldn't get a hint right now.".

(** [generateQuestions] up to its [await]: the request leaves. *)
Definition generateQuestions (selectedCategory : Category) (selectedDifficulty : Difficulty)
    (b : Browser) : Browser :=
  mkBrowser (app b |> setQuizState Loading |> setDifficulty (Some selectedDifficulty))
            (localStorage b) (alerts b)
            (quizRequests b ++ [(selectedCategory, selectedDifficulty)]) (hintRequests b).

(** [generateQuestions] from its [await] on: the [try] body on an answer, the
    [catch] on a rejection or on the [throw] of the [else] branch. *)
Definition generateQuestions_settled (r : Response) (b : Browser) : Browser :=
  let caught :=
    mkBrowser (resetQuiz (app b)) (localStorage b) (alerts b ++ [generationAlert])
              (tl (quizRequests b)) (hintRequests b) in
  match r with
  | Parsed (Some qs) =>
      if 0 <? Z.of_nat (List.length qs)
      then mkBrowser (app b |> setQuestions qs |> setQuizState Active)
                     (localStorage b) (alerts b) (tl (quizRequests b)) (hintRequests b)
      else caught
  | Parsed None => caught
  | Failed => caught
  end.

(** [handleGetHint] up to its [await].  With no current question the lookup
    of [.question] throws after the three writes: no request leaves and
    [isHintLoading] stays set. *)
Definition handleGetHint (b : Browser) : Browser :=
  let s := app b in
  if (hintCoins s <=? 0) || hintUsed s then b
  else
    let s' := s |> setIsHintLoading true |> setHintUsed true |> setHintCoins (hintCoins s - 1) in
    match index (questions s) (currentQuestionIndex s) with
    | Some q => mkBrowser s' (localStorage b) (alerts b) (quizRequests b) (hintRequests b ++ [question q])
    | None => mkBrowser s' (localStorage b) (alerts b) (quizRequests b) (hintRequests b)
    end.

(** [handleGetHint] from its [await] on, for the oldest request in flight. *)
Definition handleGetHint_settled (r : option jsstring) (b : Browser) : Browser :=
  let text := match r with Some response_text => response_text | None => hintApology end in
  mkBrowser (app b |> setHint (Some text) |> setIsHintLoading false)
            (localStorage b) (alerts b) (quizRequests b) (tl (hintRequests b)).

Definition handleNextQuestion (s : App) : App :=
  let s' := s |> setFeedback None |> setUserAnswer [] |> setHint None |> setHintUsed false in
  if currentQuestionIndex s <? Z.of_nat (List.length (questions s)) - 1
  then s' |> setCurrentQuestionIndex (currentQuestionIndex s + 1) |> setQuizState Active
  else s' |> setQuizState Finished.

(** [updatedScores] of [handleSaveScore]:
    [[...highScores, newScore].sort(...).slice(0, 10)]. *)
Definition updatedScores (highScores : list HighScore.t) (newScore : HighScore.t) : list HighScore.t :=
  slice0 10 (sort compareScores (highScores ++ [newScore])).

(** [handleSaveScore].  When [setItem] throws, the write of [highScores]
    before it stands and [setScoreSaved] is not reached. *)
Definition handleSaveScore (now : Z) (stored : bool) (b : Browser) : Browser :=
  let s := app b in
  match category s, difficulty s with
  | Some c, Some d =>
      let newScore := HighScore.make (score s) c d now in
      let updated := updatedScores (highScores s) newScore in
      if stored
      then mkBrowser (s |> setHighScores updated |> setScoreSaved true)
                     (Some (JSON_stringify updated)) (alerts b) (quizRequests b) (hintRequests b)
      else withApp (setHighScores updated) b
  | _, _ => b
  end.

Definition handleClearScores (b : Browser) : Browser :=
  mkBrowser (app b |> setHighScores []) None (alerts b) (quizRequests b) (hintRequests b).

Section Component.

(** The two built-ins that are not written out: [String.prototype.toLowerCase]
    (the case mapping of Unicode) and [JSON.parse] ([None] when it throws). *)
Variable toLowerCase : jsstring -> jsstring.
Variable JSON_parse : jsstring -> option JSON.

(** The [try] body of the effect of the first render, on the [highScores]
    cell: the value of the cell after it, [None] when it throws. *)
Definition loadHighScores_try (entry : option jsstring) (highScores : JSON) : option JSON :=
  match entry with
  | Some savedScores =>
      if truthy savedScores
      then JSON_parse savedScores
      else Some highScores
  | None => Some highScores
  end.

(** The effect: the [catch] logs the error and leaves the cell as it is.  The
    cell starts as the empty array. *)
Definition loadHighScores (entry : option jsstring) : JSON :=
  let highScores := JArray [] in
  match loadHighScores_try entry highScores with
  | Some loaded => loaded
  | None => highScores
  end.

(** The page once mounted, when the loaded value is a [HighScore[]]. *)
Definition mount (entry : option jsstring) : option Browser :=
  bind (asHighScores (loadHighScores entry)) (fun hs =>
  Some (mkBrowser (initialApp |> setHighScores hs) entry [] [] [])).

(** The comparison of [handleAnswerSubmit]; [String(correctAnswer)] is the
    answer itself. *)
Definition isCorrect (userAnswer correctAnswer : jsstring) : bool :=
  str_eqb (toLowerCase (trim userAnswer)) (toLowerCase (trim correctAnswer)).

(** [handleAnswerSubmit]; [None] when the lookup of [.answer] throws, before
    any write. *)
Definition handleAnswerSubmit (s : App) : option App :=
  if negb (truthy (trim (userAnswer s))) then Some s
  else
    match index (questions s) (currentQuestionIndex s) with
    | None => None
    | Some q =>
        let correctAnswer := answer q in
        Some ((if isCorrect (userAnswer s) correctAnswer
               then s |> setScore (score s + 1)
                      |> setFeedback (Some {| message := lit "Correct!"; correct := true |})
               else s |> setFeedback (Some {| message := lit "Incorrect! The answer is " ++ correctAnswer;
                                              correct := false |}))
              |> setQuizState Feedback)
    end.

(** [renderContent]: the controls on the page that are not disabled, and the
    requests whose answer can arrive. *)
Definition enabled (e : Event) (b : Browser) : bool :=
  let s := app b in
  match e, quizState s with
  | SelectCategory _, Idle => match category s with None => true | Some _ => false end
  | ClearScores, Idle =>
      match category s with None => 0 <? Z.of_nat (List.length (highScores s)) | Some _ => false end
  | SelectDifficulty _, Idle => match category s with Some _ => true | None => false end
  | BackToCategories, Idle => match category s with Some _ => true | None => false end
  | ChangeAnswer _, Active => true
  | GetHint, Active => negb ((hintCoins s <=? 0) || hintUsed s || isHintLoading s)
  | SubmitAnswer, Active => truthy (trim (userAnswer s))
  | NextQuestion, Feedback => true
  | SaveScore _ _, Finished => negb (scoreSaved s)
  | PlayAgain, Finished => true
  | QuestionsSettled _, _ => match quizRequests b with [] => false | _ :: _ => true end
  | HintSettled _, _ => match hintRequests b with [] => false | _ :: _ => true end
  | _, _ => false
  end.

(** The handler behind each control. *)
Definition handle (e : Event) (b : Browser) : Browser :=
  match e with
  | SelectCategory c => withApp (handleCategorySelect c) b
  | BackToCategories => withApp (setCategory None) b
  | SelectDifficulty d =>
      match category (app b) with
      | Some c => generateQuestions c d b
      | None => b
      end
  | QuestionsSettled r => generateQuestions_settled r b
  | ChangeAnswer value => withApp (setUserAnswer value) b
  | GetHint => handleGetHint b
  | HintSettled r => handleGetHint_settled r b
  | SubmitAnswer => match handleAnswerSubmit (app b) with
                    | Some s' => withApp (fun _ => s') b
                    | None => b
                    end
  | NextQuestion => withApp handleNextQuestion b
  | SaveScore now stored => handleSaveScore now stored b
  | PlayAgain => withApp resetQuiz b
  | ClearScores => handleClearScores b
  end.

(** One event on the page: an event with no enabled control changes nothing. *)
Definition dispatch (e : Event) (b : Browser) : Browser :=
  if enabled e b then handle e b else b.

Definition run (es : list Event) (b : Browser) : Browser :=
  fold_left (fun b e => dispatch e b) es b.

(** The pages a session can be in. *)
Inductive reachable : Browser -> Prop :=
| reach_mount entry b : mount entry = Some b -> reachable b
| reach_step e b : reachable b -> reachable (dispatch e b).

End Component.

(** ** Observations and the invariant *)

(** What a submission did, read off its result: the page is on the feedback
    screen with a verdict, or no verdict was given. *)
Inductive Judgement := NotJudged | JudgedCorrect | JudgedIncorrect.

Definition judgement (r : option App) : Judgement :=
  match r with
  | Some s' =>
      match quizState s', feedback s' with
      | Feedback, Some v => if correct v then JudgedCorrect else JudgedIncorrect
      | _, _ => NotJudged
      end
  | None => NotJudged
  end.

(** [a] may stand before [b] in the table: a higher score, or the same score
    and a date that is not older. *)
Definition ranksBefore (a b : HighScore.t) : Prop :=
  HighScore.score a > HighScore.score b
  \/ (HighScore.score a = HighScore.score b /\ HighScore.date a >= HighScore.date b).

(** The cells [resetQuiz] leaves as on the first render. *)
Definition fresh (s : App) : Prop :=
  questions s = [] /\ currentQuestionIndex s = 0 /\ userAnswer s = [] /\ feedback s = None
  /\ score s = 0 /\ hintCoins s = 3 /\ hintUsed s = false /\ scoreSaved s = false.

Definition isSome {A} (o : option A) : Prop :=
  match o with Some _ => True | None => False end.

(** What holds of every page of a session, state by state. *)
Definition sessionInv (b : Browser) : Prop :=
  let s := app b in
  let n := Z.of_nat (List.length (questions s)) in
  0 <= hintCoins s <= 3 /\
  match quizState s with
  | Idle => difficulty s = None /\ fresh s /\ quizRequests b = []
  | Loading =>
      isSome (category s) /\ isSome (difficulty s) /\ fresh s
      /\ List.length (quizRequests b) = 1%nat
  | Active =>
      isSome (category s) /\ isSome (difficulty s) /\ quizRequests b = [] /\ scoreSaved s = false
      /\ 0 <= currentQuestionIndex s < n /\ 0 <= score s <= currentQuestionIndex s
  | Feedback =>
      isSome (category s) /\ isSome (difficulty s) /\ quizRequests b = [] /\ scoreSaved s = false
      /\ 0 <= currentQuestionIndex s < n /\ 0 <= score s <= currentQuestionIndex s + 1
  | Finished =>
      isSome (category s) /\ isSome (difficulty s) /\ quizRequests b = []
      /\ currentQuestionIndex s = n - 1 /\ 0 < n /\ 0 <= score s <= n
  end.

(** ** Instances and sample data *)

(** [toLowerCase] on strings of Basic Latin, where it maps code unit by code
    unit. *)
Definition latinLowerCase (s : jsstring) : jsstring := map lowerLatin s.

(** A reader of the two texts [null] and [[]] that refuses every other
    text.  It agrees with [JSON.parse] on these two and on every text that is
    not JSON. *)
Definition parseNullOrEmptyArray (text : jsstring) : option JSON :=
  if str_eqb text (lit "null") then Some JNull
  else if str_eqb text (lit "[]") then Some (JArray [])
  else None.

(** A page with no stored entry, just mounted. *)
Definition firstPage : Browser := mkBrowser initialApp None [] [] [].

(** A batch of six questions, each answered by [1]. *)
Definition sixQuestions : list Question :=
  repeat {| question := lit "1 x 1 = ?"; answer := lit "1" |} 6.

Definition answerRight : list Event := [ChangeAnswer (lit "1"); SubmitAnswer; NextQuestion].

Definition sixRightAnswers : list Event :=
  [SelectCategory Arithmetic; SelectDifficulty Easy; QuestionsSettled (Parsed (Some sixQuestions))]
  ++ answerRight ++ answerRight ++ answerRight ++ answerRight ++ answerRight ++ answerRight.

(** A page on the first question of a quiz whose answer is [7]. *)
Definition askingSeven (typed : jsstring) : App :=
  initialApp |> setQuizState Active |> setCategory (Some Arithmetic) |> setDifficulty (Some Easy)
             |> setQuestions [{| question := lit "3 + 4 = ?"; answer := lit "7" |}]
             |> setUserAnswer typed.

(** A page on a question whose stored answer is the empty string, with a
    blank typed. *)
Definition askingNothing : App :=
  initialApp |> setQuizState Active |> setCategory (Some Arithmetic) |> setDifficulty (Some Easy)
             |> setQuestions [{| question := lit "?"; answer := [] |}]
             |> setUserAnswer (lit " ").

(** The page [askingSeven] in its browser. *)
Definition sevenPage (typed : jsstring) : Browser := mkBrowser (askingSeven typed) None [] [] [].

(** Up to the request of a quiz. *)
Definition untilLoading : list Event := [SelectCategory Geometry; SelectDifficulty Medium].

(** A whole quiz of one question, answered right. *)
Definition oneQuestionQuiz : list Event :=
  untilLoading
  ++ [QuestionsSettled (Parsed (Some [{| question := lit "1 x 1 = ?"; answer := lit "1" |}]))]
  ++ answerRight.

(** A quiz of one question on which a hint is asked and never answered,
    played to its end, and a second quiz asked for. *)
Definition untilLoadingWithHintPending : list Event :=
  [SelectCategory Arithmetic; SelectDifficulty Easy;
   QuestionsSettled (Parsed (Some [{| question := lit "1 x 1 = ?"; answer := lit "1" |}]));
   GetHint; ChangeAnswer (lit "1"); SubmitAnswer; NextQuestion; PlayAgain;
   SelectCategory Algebra; SelectDifficulty Hard].

(** A finished quiz of one question, answered right, not yet saved. *)
Definition finishedPage : Browser :=
  mkBrowser (initialApp |> setQuizState Finished |> setCategory (Some Algebra) |> setDifficulty (Some Hard)
                        |> setQuestions [{| question := lit "x = ?"; answer := lit "1" |}]
                        |> setScore 1)
            None [] [] [].

(** ** Further observations *)

(** The moves of [quizState] the handlers make; an event may also leave the
    state where it is. *)
Definition allowedTransition (before after : QuizState) : bool :=
  match before, after with
  | Idle, Idle | Idle, Loading
  | Loading, Loading | Loading, Active | Loading, Idle
  | Active, Active | Active, Feedback
  | Feedback, Feedback | Feedback, Active | Feedback, Finished
  | Finished, Finished | Finished, Idle => true
  | _, _ => false
  end.

(** The requests in flight, against the cells: the hint flag is set exactly
    while one hint request is out, and a batch of questions is awaited exactly
    in the Loading state, for the category and difficulty on the page. *)
Definition requestsInv (b : Browser) : Prop :=
  (if isHintLoading (app b)
   then exists problem, hintRequests b = [problem]
   else hintRequests b = [])
  /\ match quizState (app b) with
     | Loading =>
         exists c d, category (app b) = Some c /\ difficulty (app b) = Some d
                     /\ quizRequests b = [(c, d)]
     | _ => quizRequests b = []
     end.

(** Typing an answer, submitting it and moving on. *)
Definition answerRound (typed : jsstring) : list Event :=
  [ChangeAnswer typed; SubmitAnswer; NextQuestion].

Definition quizRounds (typed : list jsstring) : list Event := flat_map answerRound typed.

(** How many of the typed answers the comparison of [handleAnswerSubmit]
    accepts, question by question. *)
Fixpoint countCorrect (toLowerCase : jsstring -> jsstring)
    (typed : list jsstring) (qs : list Question) : Z :=
  match typed, qs with
  | a :: typed', q :: qs' =>
      (if isCorrect toLowerCase a (answer q) then 1 else 0) + countCorrect toLowerCase typed' qs'
  | _, _ => 0
  end.

(** The entry [handleSaveScore] makes of a page at a time. *)
Definition entryOf (s : App) (c : Category) (d : Difficulty) (now : Z) : HighScore.t :=
  HighScore.make (score s) c d now.

(** More sample data. *)

Definition twoQuestions : list Question :=
  [{| question := lit "2 + 2 = ?"; answer := lit "4" |};
   {| question := lit "Shape with three sides?"; answer := lit "Triangle" |}].

(** A quiz of two questions up to the feedback on the first, a hint asked
    and not yet answered. *)
Definition untilLateHint : list Event :=
  untilLoading
  ++ [QuestionsSettled (Parsed (Some twoQuestions)); GetHint; ChangeAnswer (lit "4"); SubmitAnswer].

(** A quiz of two questions up to its first question. *)
Definition untilFirstQuestion : list Event :=
  untilLoading ++ [QuestionsSettled (Parsed (Some twoQuestions))].

Definition sampleTable : list HighScore.t :=
  [HighScore.make 1 Algebra Hard 1700000000000].

(** ** Facts about the built-ins *)

Lemma str_eqb_refl (a : jsstring) : str_eqb a a = true.
Proof.
  induction a as [|x a IH]; simpl; [reflexivity|].
  now rewrite Z.eqb_refl, IH.
Qed.

Lemma str_eqb_eq (a b : jsstring) : str_eqb a b = true <-> a = b.
Proof.
  split; [|intros ->; apply str_eqb_refl].
  revert b; induction a as [|x a IH]; intros [|y b]; simpl; try discriminate; [reflexivity|].
  intros H; apply andb_true_iff in H as [Hx Hab].
  apply Z.eqb_eq in Hx; subst y.
  now rewrite (IH b Hab).
Qed.

Lemma str_eqb_neq (a b : jsstring) : str_eqb a b = false <-> a <> b.
Proof.
  rewrite <- str_eqb_eq.
  destruct (str_eqb a b); split; congruence.
Qed.

Lemma truthy_false (s : jsstring) : truthy s = false <-> s = [].
Proof. destruct s; simpl; split; congruence. Qed.

Section SortFacts.
Context {A : Type} (cmp : A -> A -> Z) (R : A -> A -> Prop).

(** The comparator decides [R], and [R] is total and transitive. *)
Hypothesis cmp_R : forall a b, cmp a b <= 0 <-> R a b.
Hypothesis R_total : forall a b, R a b \/ R b a.
Hypothesis R_trans : forall a b c, R a b -> R b c -> R a c.

Lemma insert_perm (x : A) (l : list A) : Permutation (x :: l) (insert cmp x l).
Proof.
  induction l as [|y l IH]; simpl; [reflexivity|].
  destruct (cmp x y <=? 0); [reflexivity|].
  rewrite perm_swap. now apply perm_skip.
Qed.

Lemma sort_perm (l : list A) : Permutation l (sort cmp l).
Proof.
  induction l as [|x l IH]; simpl; [constructor|].
  rewrite <- insert_perm. now apply perm_skip.
Qed.

Lemma insert_sorted (x : A) (l : list A) :
  StronglySorted R l -> StronglySorted R (insert cmp x l).
Proof.
  induction 1 as [|y l Hl IH Hy]; simpl.
  - repeat constructor.
  - destruct (Z.leb_spec (cmp x y) 0) as [Hle|Hgt].
    + apply cmp_R in Hle.
      constructor; [now constructor|].
      constructor; [assumption|].
      eapply Forall_impl; [|exact Hy]. intros z Hz. now apply R_trans with y.
    + assert (Hyx : R y x).
      { destruct (R_total x y) as [Hxy|Hyx]; [|assumption].
        apply cmp_R in Hxy. lia. }
      constructor; [assumption|].
      eapply Permutation_Forall; [apply insert_perm|].
      now constructor.
Qed.

Lemma sort_sorted (l : list A) : StronglySorted R (sort cmp l).
Proof.
  induction l as [|x l IH]; simpl; [constructor|].
  now apply insert_sorted.
Qed.

Lemma firstn_In (n : nat) (l : list A) (z : A) : In z (firstn n l) -> In z l.
Proof.
  revert l; induction n as [|n IH]; intros [|y l]; simpl; try tauto.
  intros [->|Hz]; [now left|right; now apply IH].
Qed.

Lemma firstn_sorted (n : nat) (l : list A) :
  StronglySorted R l -> StronglySorted R (firstn n l).
Proof.
  intros Hl; revert n; induction Hl as [|y l Hl IH Hy]; intros [|n]; simpl; try constructor.
  - apply IH.
  - apply Forall_forall; intros z Hz.
    eapply Forall_forall in Hy; [exact Hy|].
    eapply firstn_In; exact Hz.
Qed.

End SortFacts.

Lemma compareScores_ranksBefore (a b : HighScore.t) :
  compareScores a b <= 0 <-> ranksBefore a b.
Proof.
  unfold compareScores, ranksBefore.
  destruct (Z.eqb_spec (HighScore.score b - HighScore.score a) 0); lia.
Qed.

Lemma ranksBefore_total (a b : HighScore.t) : ranksBefore a b \/ ranksBefore b a.
Proof. unfold ranksBefore; lia. Qed.

Lemma ranksBefore_trans (a b c : HighScore.t) :
  ranksBefore a b -> ranksBefore b c -> ranksBefore a c.
Proof. unfold ranksBefore; lia. Qed.

Lemma updatedScores_length (hs : list HighScore.t) (new : HighScore.t) :
  (List.length (updatedScores hs new) <= 10)%nat.
Proof. unfold updatedScores, slice0. apply firstn_le_length. Qed.

Lemma updatedScores_sorted (hs : list HighScore.t) (new : HighScore.t) :
  StronglySorted ranksBefore (updatedScores hs new).
Proof.
  unfold updatedScores, slice0.
  apply firstn_sorted.
  apply sort_sorted.
  - apply compareScores_ranksBefore.
  - apply ranksBefore_total.
  - apply ranksBefore_trans.
Qed.

(** ** The session *)

Section Properties.

Variable toLowerCase : jsstring -> jsstring.
Variable JSON_parse : jsstring -> option JSON.

(** On strings of Basic Latin [toLowerCase] maps each code unit by itself. *)
Hypothesis toLowerCase_latin :
  forall s, forallb isLatin s = true -> toLowerCase s = map lowerLatin s.

Local Notation submit := (handleAnswerSubmit toLowerCase).
Local Notation step := (dispatch toLowerCase).
Local Notation reachable' := (reachable toLowerCase JSON_parse).

Lemma isCorrect_spec (typed stored : jsstring) :
  isCorrect toLowerCase typed stored = true
  <-> toLowerCase (trim typed) = toLowerCase (trim stored).
Proof. unfold isCorrect. apply str_eqb_eq. Qed.

Lemma submit_verdict (s : App) (q : Question) :
  index (questions s) (currentQuestionIndex s) = Some q ->
  trim (userAnswer s) <> [] ->
  judgement (submit s)
  = if isCorrect toLowerCase (userAnswer s) (answer q) then JudgedCorrect else JudgedIncorrect.
Proof.
  intros Hq Hne. unfold handleAnswerSubmit.
  destruct (truthy (trim (userAnswer s))) eqn:Ht.
  - simpl. rewrite Hq.
    destruct (isCorrect toLowerCase (userAnswer s) (answer q)); reflexivity.
  - apply truthy_false in Ht. contradiction.
Qed.

(** C1, amended.  For every typed answer whose trimmed form is not empty and
    every stored answer, [handleAnswerSubmit] judges the answer correct (and
    adds one to the score) exactly when the two strings, trimmed and put in
    lower case, are the same string, and judges it incorrect (score unchanged)
    otherwise; ["7 "] against ["7"] is judged correct and ["7.0"] against
    ["7"] incorrect. *)
Theorem handleAnswerSubmit_judges (s : App) (q : Question)
    (Hq : index (questions s) (currentQuestionIndex s) = Some q)
    (Htyped : trim (userAnswer s) <> []) :
  (judgement (submit s) = JudgedCorrect
   <-> toLowerCase (trim (userAnswer s)) = toLowerCase (trim (answer q)))
  /\ (judgement (submit s) = JudgedIncorrect
      <-> toLowerCase (trim (userAnswer s)) <> toLowerCase (trim (answer q)))
  /\ (exists s', submit s = Some s' /\ quizState s' = Feedback
        /\ score s' = if isCorrect toLowerCase (userAnswer s) (answer q)
                      then score s + 1 else score s)
  /\ (userAnswer s = lit "7 " -> answer q = lit "7" -> judgement (submit s) = JudgedCorrect)
  /\ (userAnswer s = lit "7.0" -> answer q = lit "7" -> judgement (submit s) = JudgedIncorrect).
Proof.
  rewrite (submit_verdict s q Hq Htyped).
  pose proof (isCorrect_spec (userAnswer s) (answer q)) as Hspec.
  repeat split.
  - destruct (isCorrect toLowerCase (userAnswer s) (answer q)); [tauto|discriminate].
  - intros H. apply Hspec in H. now rewrite H.
  - destruct (isCorrect toLowerCase (userAnswer s) (answer q)); [discriminate|].
    intros _ H. apply Hspec in H. discriminate.
  - destruct (isCorrect toLowerCase (userAnswer s) (answer q)); [|reflexivity].
    intros H. exfalso. apply H. now apply Hspec.
  - unfold handleAnswerSubmit.
    destruct (truthy (trim (userAnswer s))) eqn:Ht;
      [|apply truthy_false in Ht; contradiction].
    simpl. rewrite Hq.
    destruct (isCorrect toLowerCase (userAnswer s) (answer q));
      eexists; repeat split; reflexivity.
  - intros Hu Ha.
    assert (H : isCorrect toLowerCase (userAnswer s) (answer q) = true).
    { apply isCorrect_spec. rewrite Hu, Ha. reflexivity. }
    now rewrite H.
  - intros Hu Ha.
    assert (H : isCorrect toLowerCase (userAnswer s) (answer q) = false).
    { unfold isCorrect. apply str_eqb_neq. rewrite Hu, Ha.
      rewrite !toLowerCase_latin by reflexivity. discriminate. }
    now rewrite H.
Qed.

(** C10.  Submitting while the trimmed answer is empty changes nothing: the
    handler returns at its guard, and so the state, the score, the feedback,
    the index, the typed answer and the hint cells are the ones before. *)
Theorem empty_answer_is_ignored (b : Browser)
    (Hempty : trim (userAnswer (app b)) = []) :
  submit (app b) = Some (app b)
  /\ handle toLowerCase SubmitAnswer b = b
  /\ step SubmitAnswer b = b.
Proof.
  assert (Hs : submit (app b) = Some (app b)).
  { unfold handleAnswerSubmit. now rewrite Hempty. }
  assert (Hh : handle toLowerCase SubmitAnswer b = b).
  { simpl. rewrite Hs. now destruct b. }
  repeat split; try assumption.
  unfold dispatch. now destruct (enabled SubmitAnswer b).
Qed.

Lemma getHint_refused (b : Browser) :
  hintCoins (app b) <= 0 \/ hintUsed (app b) = true -> handleGetHint b = b.
Proof.
  intros H. unfold handleGetHint.
  destruct (Z.leb_spec (hintCoins (app b)) 0); simpl; [reflexivity|].
  destruct H as [H|H]; [lia|now rewrite H].
Qed.

Lemma getHint_granted (b : Browser) :
  0 < hintCoins (app b) -> hintUsed (app b) = false ->
  app (handleGetHint b)
  = (app b |> setIsHintLoading true |> setHintUsed true |> setHintCoins (hintCoins (app b) - 1)).
Proof.
  intros Hc Hu. unfold handleGetHint.
  destruct (Z.leb_spec (hintCoins (app b)) 0); [lia|].
  rewrite Hu. simpl.
  now destruct (index (questions (app b)) (currentQuestionIndex (app b))).
Qed.

Lemma step_changes_enabled (e : Event) (b : Browser) :
  step e b <> b -> enabled e b = true /\ step e b = handle toLowerCase e b.
Proof.
  unfold dispatch. destruct (enabled e b); [auto|congruence].
Qed.

(** C2.  A hint request changes the page only in the Active state with
    [hintCoins > 0] and the hint of the question not yet used; the request
    then takes exactly one coin and sets [hintUsed], a further request takes
    nothing, and whatever the answer of the service the coins and the latch
    stay as they are: a response sets the hint to its text, a failure sets it
    to the apology. *)
Theorem hint_request_spends_one_coin (b : Browser) :
  (step GetHint b <> b ->
     quizState (app b) = Active /\ 0 < hintCoins (app b) /\ hintUsed (app b) = false)
  /\ (handleGetHint b <> b -> 0 < hintCoins (app b) /\ hintUsed (app b) = false)
  /\ (0 < hintCoins (app b) -> hintUsed (app b) = false ->
      let b1 := handleGetHint b in
      hintCoins (app b1) = hintCoins (app b) - 1
      /\ hintUsed (app b1) = true
      /\ handleGetHint b1 = b1
      /\ forall r : option jsstring,
           let b2 := handleGetHint_settled r b1 in
           hintCoins (app b2) = hintCoins (app b) - 1
           /\ hintUsed (app b2) = true
           /\ quizState (app b2) = quizState (app b)
           /\ score (app b2) = score (app b)
           /\ hint (app b2) = Some (match r with Some text => text | None => hintApology end)).
Proof.
  assert (Honly : handleGetHint b <> b -> 0 < hintCoins (app b) /\ hintUsed (app b) = false).
  { intros Hne.
    destruct (Z.leb_spec (hintCoins (app b)) 0) as [Hle|Hgt].
    - exfalso. apply Hne. apply getHint_refused. now left.
    - split; [assumption|].
      destruct (hintUsed (app b)) eqn:Hu; [|reflexivity].
      exfalso. apply Hne. apply getHint_refused. now right. }
  split; [|split; [exact Honly|]].
  - intros Hne. apply step_changes_enabled in Hne as [Hen Hst].
    assert (Hact : quizState (app b) = Active).
    { unfold enabled in Hen. destruct (quizState (app b)); try discriminate. reflexivity. }
    split; [assumption|].
    unfold enabled in Hen. rewrite Hact in Hen.
    apply negb_true_iff in Hen.
    apply orb_false_iff in Hen as [Hen _]. apply orb_false_iff in Hen as [Hc Hu].
    apply Z.leb_gt in Hc. now split.
  - intros Hc Hu b1.
    pose proof (getHint_granted b Hc Hu) as Happ. fold b1 in Happ.
    assert (Hused : hintUsed (app b1) = true) by now rewrite Happ.
    split; [now rewrite Happ|].
    split; [assumption|].
    split; [apply getHint_refused; now right|].
    intros r b2. unfold b2; simpl. rewrite Happ; simpl.
    destruct r; repeat split.
Qed.

(** C8.  Once the hint of the current question has been granted, a further
    request is ignored: the page is the same, so [hintCoins] is not taken
    from again and the hint text is the one before. *)
Theorem second_hint_request_is_ignored (b : Browser)
    (Hused : hintUsed (app b) = true) :
  handleGetHint b = b
  /\ step GetHint b = b
  /\ hintCoins (app (handleGetHint b)) = hintCoins (app b)
  /\ hint (app (handleGetHint b)) = hint (app b).
Proof.
  assert (H : handleGetHint b = b) by (apply getHint_refused; now right).
  repeat split; try (now rewrite H).
  unfold dispatch. destruct (enabled GetHint b); [exact H|reflexivity].
Qed.

(** *** The invariant of the session *)

Lemma mount_inv (entry : option jsstring) (b : Browser) :
  mount JSON_parse entry = Some b -> sessionInv b.
Proof.
  unfold mount. destruct (asHighScores (loadHighScores JSON_parse entry)); simpl; [|discriminate].
  intros [= <-]. unfold sessionInv, fresh; simpl. repeat split; lia.
Qed.

Ltac open_page b :=
  let s := fresh "s" in
  destruct b as [s ? ? ? ?]; destruct s; unfold sessionInv, fresh, enabled in *; simpl in *.

Ltac close_inv := simpl; unfold isSome in *; intuition (try discriminate; try congruence; try lia).

Lemma handle_inv (e : Event) (b : Browser) :
  sessionInv b -> enabled e b = true -> sessionInv (handle toLowerCase e b).
Proof.
  intros Hinv Hen. destruct e.
  - open_page b. destruct quizState0; try discriminate. close_inv.
  - open_page b. destruct quizState0; try discriminate. close_inv.
  - open_page b. destruct quizState0; try discriminate.
    destruct category0; try discriminate.
    assert (quizRequests0 = []) by tauto. subst. close_inv.
  - open_page b.
    assert (Hl : quizState0 = Loading).
    { destruct quizState0; try reflexivity; exfalso;
        assert (quizRequests0 = []) by tauto; subst; discriminate. }
    subst quizState0.
    assert (Hone : exists request, quizRequests0 = [request]).
    { destruct quizRequests0 as [|request [|? ?]]; simpl in Hinv;
        [discriminate| now exists request | exfalso; intuition discriminate]. }
    destruct Hone as [request ->].
    destruct r as [|[qs|]]; simpl.
    + close_inv.
    + destruct (Z.ltb_spec 0 (Z.of_nat (List.length qs))); close_inv.
    + close_inv.
  - open_page b. destruct quizState0; try discriminate. close_inv.
  - unfold handle, handleGetHint.
    destruct ((hintCoins (app b) <=? 0) || hintUsed (app b)) eqn:Hg; [assumption|].
    apply orb_false_iff in Hg as [Hc _]. apply Z.leb_gt in Hc.
    destruct (index (questions (app b)) (currentQuestionIndex (app b)));
      open_page b; (destruct quizState0; try discriminate); close_inv.
  - open_page b. destruct quizState0; close_inv.
  - unfold handle, handleAnswerSubmit.
    destruct (negb (truthy (trim (userAnswer (app b))))); [now destruct b|].
    destruct (index (questions (app b)) (currentQuestionIndex (app b))) as [q|]; [|assumption].
    destruct (isCorrect toLowerCase (userAnswer (app b)) (answer q));
      open_page b; (destruct quizState0; try discriminate); close_inv.
  - unfold handle, withApp, handleNextQuestion.
    destruct (Z.ltb_spec (currentQuestionIndex (app b)) (Z.of_nat (List.length (questions (app b))) - 1));
      open_page b; (destruct quizState0; try discriminate); close_inv.
  - unfold handle, handleSaveScore.
    destruct (category (app b)) eqn:Hc; [|assumption].
    destruct (difficulty (app b)) eqn:Hd; [|assumption].
    destruct stored; open_page b; (destruct quizState0; try discriminate); close_inv.
  - open_page b. destruct quizState0; try discriminate. close_inv.
  - open_page b. destruct quizState0; try discriminate. close_inv.
Qed.

Lemma step_inv (e : Event) (b : Browser) : sessionInv b -> sessionInv (step e b).
Proof.
  intros Hinv. unfold dispatch.
  destruct (enabled e b) eqn:Hen; [now apply handle_inv|assumption].
Qed.

Lemma reachable_inv (b : Browser) : reachable' b -> sessionInv b.
Proof.
  induction 1 as [entry b Hm|e b Hb IH].
  - eapply mount_inv; eassumption.
  - now apply step_inv.
Qed.

(** On a reachable page that shows a question there is one to show: the
    lookups of [handleAnswerSubmit] and [handleGetHint] do not throw. *)
Lemma current_question_exists (b : Browser) :
  reachable' b ->
  quizState (app b) = Active \/ quizState (app b) = Feedback ->
  exists q, index (questions (app b)) (currentQuestionIndex (app b)) = Some q.
Proof.
  intros Hb Hq. apply reachable_inv in Hb. unfold sessionInv in Hb.
  assert (Hi : 0 <= currentQuestionIndex (app b) < Z.of_nat (List.length (questions (app b)))).
  { destruct Hq as [Hq|Hq]; rewrite Hq in Hb; tauto. }
  unfold index. destruct (Z.ltb_spec (currentQuestionIndex (app b)) 0); [lia|].
  destruct (nth_error (questions (app b)) (Z.to_nat (currentQuestionIndex (app b)))) eqn:Hn;
    [now eexists|].
  apply nth_error_None in Hn. lia.
Qed.

Lemma reachable_run (es : list Event) (b : Browser) :
  reachable' b -> reachable' (run toLowerCase es b).
Proof.
  revert b; induction es as [|e es IH]; intros b Hb; simpl; [assumption|].
  apply IH. now constructor.
Qed.

Lemma step_score (e : Event) (b : Browser) :
  app (step e b) = resetQuiz (app b) \/ score (app b) <= score (app (step e b)).
Proof.
  unfold dispatch. destruct (enabled e b); [|right; lia].
  destruct e as [c| |d|r|value| |r| | |now stored| | ];
    simpl; try (right; lia); try (now left).
  - right. destruct (category (app b)); simpl; lia.
  - destruct r as [|[qs|]]; simpl; try (now left).
    destruct (0 <? Z.of_nat (List.length qs)); simpl; [right; lia|now left].
  - right. unfold handleGetHint.
    destruct ((hintCoins (app b) <=? 0) || hintUsed (app b)); [lia|].
    destruct (index (questions (app b)) (currentQuestionIndex (app b))); simpl; lia.
  - right. unfold handleAnswerSubmit.
    destruct (negb (truthy (trim (userAnswer (app b))))); simpl; [lia|].
    destruct (index (questions (app b)) (currentQuestionIndex (app b))) as [q|]; [|lia].
    destruct (isCorrect toLowerCase (userAnswer (app b)) (answer q)); simpl; lia.
  - right. unfold handleNextQuestion.
    destruct (currentQuestionIndex (app b) <? Z.of_nat (List.length (questions (app b))) - 1);
      simpl; lia.
  - right. unfold handleSaveScore.
    destruct (category (app b)); [|lia]. destruct (difficulty (app b)); [|lia].
    destruct stored; simpl; lia.
Qed.

(** C5, amended.  On every page of every session [0 <= score] and [score]
    is at most the number of questions loaded, so at most 5 whenever the batch
    holds at most [QUIZ_LENGTH] questions, and [0 <= hintCoins <= 3]; an event
    either resets the quiz or leaves the score at least what it was; and
    [hintCoins] is 3 on the first render, after every reset and until the
    questions of a quiz have arrived. *)
Theorem session_bounds (b : Browser) (Hb : reachable' b) :
  0 <= score (app b) <= Z.of_nat (List.length (questions (app b)))
  /\ (Z.of_nat (List.length (questions (app b))) <= QUIZ_LENGTH -> 0 <= score (app b) <= 5)
  /\ 0 <= hintCoins (app b) <= 3
  /\ (forall e, app (step e b) = resetQuiz (app b) \/ score (app b) <= score (app (step e b)))
  /\ (quizState (app b) = Idle \/ quizState (app b) = Loading ->
      score (app b) = 0 /\ hintCoins (app b) = 3)
  /\ hintCoins initialApp = 3
  /\ hintCoins (resetQuiz (app b)) = 3.
Proof.
  pose proof (reachable_inv b Hb) as Hinv.
  assert (Hs : 0 <= score (app b) <= Z.of_nat (List.length (questions (app b)))).
  { destruct b as [s ? ? ? ?]; destruct s; unfold sessionInv, fresh in Hinv; simpl in *.
    destruct quizState0; intuition (subst; simpl; lia). }
  split; [exact Hs|].
  split; [unfold QUIZ_LENGTH; lia|].
  split; [apply Hinv|].
  split; [intros e; apply step_score|].
  split; [|split; reflexivity].
  unfold sessionInv, fresh in Hinv.
  intros [Hq|Hq]; rewrite Hq in Hinv; tauto.
Qed.

(** C6, amended.  In the Loading state, an answer of the service that is a
    failure or carries no question resets the quiz (Idle, no category, no
    difficulty, no questions, no typed answer, no feedback, score 0, three
    hint coins, no hint text, hint not used, not saved) and shows the alert;
    the reset leaves the flag [isHintLoading], the hint requests in flight and
    the high-score table as they are, so a hint asked in the quiz before may
    still be loading and arrive later.  An answer with at least one question
    puts the session in the Active state on question 0 with score 0 and three
    hint coins. *)
Theorem generation_settles (b : Browser) (r : Response)
    (Hb : reachable' b) (Hloading : quizState (app b) = Loading) :
  let b' := step (QuestionsSettled r) b in
  match r with
  | Parsed (Some (q :: qs)) =>
      quizState (app b') = Active /\ questions (app b') = q :: qs
      /\ currentQuestionIndex (app b') = 0 /\ score (app b') = 0 /\ hintCoins (app b') = 3
      /\ alerts b' = alerts b
  | _ =>
      app b' = resetQuiz (app b)
      /\ quizState (app b') = Idle /\ category (app b') = None /\ difficulty (app b') = None
      /\ questions (app b') = [] /\ currentQuestionIndex (app b') = 0
      /\ score (app b') = 0 /\ hintCoins (app b') = 3
      /\ hint (app b') = None /\ hintUsed (app b') = false
      /\ alerts b' = alerts b ++ [generationAlert]
      /\ userAnswer (app b') = [] /\ feedback (app b') = None /\ scoreSaved (app b') = false
      /\ isHintLoading (app b') = isHintLoading (app b)
      /\ hintRequests b' = hintRequests b
      /\ highScores (app b') = highScores (app b)
  end.
Proof.
  pose proof (reachable_inv b Hb) as Hinv.
  assert (Hen : enabled (QuestionsSettled r) b = true).
  { unfold sessionInv in Hinv. rewrite Hloading in Hinv.
    destruct Hinv as (_ & _ & _ & _ & Hone).
    unfold enabled. destruct (quizRequests b); [discriminate|].
    now destruct (quizState (app b)). }
  assert (Hfresh : fresh (app b)).
  { unfold sessionInv in Hinv. rewrite Hloading in Hinv. tauto. }
  destruct Hfresh as (_ & Hi & _ & _ & Hs & Hh & _).
  intros b'. unfold b', dispatch. rewrite Hen. clear b'.
  destruct r as [|[[|q qs]|]]; simpl; repeat split; assumption.
Qed.

(** C3.  On the results screen, once a save has been stored the button is
    disabled ([scoreSaved]): a second save request leaves the page as it is,
    and with it the high-score table and the stored entry. *)
Theorem second_save_is_ignored (b : Browser) (now now' : Z) (stored' : bool)
    (Hb : reachable' b) (Hfinished : quizState (app b) = Finished) :
  let b1 := step (SaveScore now true) b in
  scoreSaved (app b1) = true
  /\ step (SaveScore now' stored') b1 = b1
  /\ highScores (app (step (SaveScore now' stored') b1)) = highScores (app b1)
  /\ localStorage (step (SaveScore now' stored') b1) = localStorage b1.
Proof.
  pose proof (reachable_inv b Hb) as Hinv.
  unfold sessionInv in Hinv. rewrite Hfinished in Hinv.
  destruct Hinv as (_ & Hc & Hd & _).
  intros b1.
  assert (Hsaved : scoreSaved (app b1) = true).
  { unfold b1, dispatch, enabled. rewrite Hfinished.
    destruct (scoreSaved (app b)) eqn:Hs; simpl; [assumption|].
    unfold handleSaveScore.
    destruct (category (app b)); [|contradiction].
    destruct (difficulty (app b)); [|contradiction]. reflexivity. }
  assert (Hnoop : step (SaveScore now' stored') b1 = b1).
  { unfold dispatch at 1. unfold enabled. rewrite Hsaved.
    now destruct (quizState (app b1)). }
  rewrite Hnoop. auto.
Qed.

Lemma sorted_pairs (t l1 l2 l3 : list HighScore.t) (a b : HighScore.t) :
  StronglySorted ranksBefore t -> t = l1 ++ a :: l2 ++ b :: l3 -> ranksBefore a b.
Proof.
  intros Ht ->. induction l1 as [|x l1 IH]; simpl in Ht.
  - apply StronglySorted_inv in Ht as [_ Hall].
    eapply Forall_forall in Hall; [exact Hall|].
    apply in_or_app. right. now left.
  - apply StronglySorted_inv in Ht as [Ht _]. now apply IH.
Qed.

(** C4.  After [handleSaveScore] has saved an entry in any table, the table
    has at most 10 entries and every entry stands before every later one by
    the order of the table: a higher score, or the same score and a date at
    least as recent.  Two quizzes that both score 3, the second saved at a
    later time than the first into the table the first left, starting from the
    empty table, leave the second before the first. *)
Theorem saved_table_capped_and_sorted (b : Browser) (now : Z) (stored : bool)
    (c : Category) (d : Difficulty)
    (Hc : category (app b) = Some c) (Hd : difficulty (app b) = Some d) :
  let t := highScores (app (handleSaveScore now stored b)) in
  t = updatedScores (highScores (app b)) (HighScore.make (score (app b)) c d now)
  /\ (List.length t <= 10)%nat
  /\ StronglySorted ranksBefore t
  /\ (forall l1 l2 l3 x y,
        t = l1 ++ x :: l2 ++ y :: l3 ->
        HighScore.score x >= HighScore.score y
        /\ (HighScore.score x = HighScore.score y -> HighScore.date x >= HighScore.date y))
  /\ (forall (bB : Browser) (later : Z) (storedB : bool) (cB : Category) (dB : Difficulty),
        highScores (app b) = [] -> score (app b) = 3 ->
        category (app bB) = Some cB -> difficulty (app bB) = Some dB ->
        score (app bB) = 3 -> highScores (app bB) = t -> now < later ->
        highScores (app (handleSaveScore later storedB bB))
        = [HighScore.make 3 cB dB later; HighScore.make 3 c d now]).
Proof.
  intros t.
  assert (Ht : t = updatedScores (highScores (app b)) (HighScore.make (score (app b)) c d now)).
  { unfold t, handleSaveScore. rewrite Hc, Hd. now destruct stored. }
  split; [exact Ht|].
  split; [rewrite Ht; apply updatedScores_length|].
  assert (Hsorted : StronglySorted ranksBefore t) by (rewrite Ht; apply updatedScores_sorted).
  split; [exact Hsorted|].
  split.
  { intros l1 l2 l3 x y Hsplit.
    pose proof (sorted_pairs t l1 l2 l3 x y Hsorted Hsplit) as Hxy.
    unfold ranksBefore in Hxy. lia. }
  intros bB later storedB cB dB Hempty Hscore HcB HdB HscoreB HtB Hlater.
  assert (HB : highScores (app (handleSaveScore later storedB bB))
               = updatedScores t (HighScore.make 3 cB dB later)).
  { unfold handleSaveScore. rewrite HcB, HdB, HscoreB, HtB. now destruct storedB. }
  rewrite HB, Ht, Hempty, Hscore.
  unfold updatedScores, slice0, sort, compareScores; simpl.
  replace (later - now <=? 0) with false by (symmetry; apply Z.leb_gt; lia).
  reflexivity.
Qed.

(** C9.  Clearing the scores empties the table in memory and removes the
    stored entry, which is how the empty table is kept; a load after it, on
    the next visit of the page, finds no entry and yields the empty table. *)
Theorem clear_then_load_is_empty (b : Browser) :
  let b' := handleClearScores b in
  highScores (app b') = []
  /\ localStorage b' = None
  /\ loadHighScores JSON_parse (localStorage b') = JArray []
  /\ asHighScores (loadHighScores JSON_parse (localStorage b')) = Some []
  /\ mount JSON_parse (localStorage b') = Some firstPage
  /\ handle toLowerCase ClearScores b = b'.
Proof. repeat split. Qed.

(** C7, amended.  The load never raises: whatever the stored entry, and also
    when its [try] body throws, it ends with a value for the table.  With no
    entry, with the empty string, or with a text that [JSON.parse] refuses,
    that value is the empty table; with a text that parses, it is the parsed
    value as it is, table or not. *)
Theorem load_falls_back_to_empty (entry : option jsstring) :
  (loadHighScores_try JSON_parse entry (JArray []) = None ->
   loadHighScores JSON_parse entry = JArray [])
  /\ (entry = None \/ entry = Some []
      \/ (exists text, entry = Some text /\ JSON_parse text = None) ->
      loadHighScores JSON_parse entry = JArray []
      /\ mount JSON_parse entry = Some (mkBrowser initialApp entry [] [] []))
  /\ (forall text parsed,
        entry = Some text -> text <> [] -> JSON_parse text = Some parsed ->
        loadHighScores JSON_parse entry = parsed).
Proof.
  split; [|split].
  - unfold loadHighScores. now intros ->.
  - intros H.
    assert (Hl : loadHighScores JSON_parse entry = JArray []).
    { destruct H as [->|[->|(text & -> & Hp)]]; try reflexivity.
      unfold loadHighScores; simpl. rewrite Hp. now destruct (truthy text). }
    split; [exact Hl|]. unfold mount. now rewrite Hl.
  - intros text parsed -> Hne Hp. unfold loadHighScores; simpl. rewrite Hp.
    destruct text; [contradiction|reflexivity].
Qed.

End Properties.

(** ** The properties on concrete pages *)

Lemma run_cons f (e : Event) (es : list Event) (b : Browser) :
  run f (e :: es) b = run f es (dispatch f e b).
Proof. reflexivity. Qed.

Lemma isCorrect_same f (a : jsstring) : isCorrect f a a = true.
Proof. unfold isCorrect. apply str_eqb_refl. Qed.

Ltac run_events :=
  repeat (rewrite run_cons; unfold dispatch at 1;
          cbv -[run isCorrect]; rewrite ?isCorrect_same; cbv -[run isCorrect]).

(** Six questions answered right give six points, whatever [toLowerCase]
    does: the typed answer is the stored one. *)
Lemma sixRightAnswers_score f :
  score (app (run f sixRightAnswers firstPage)) = 6.
Proof.
  unfold sixRightAnswers, answerRight, firstPage. cbn [List.app].
  run_events. reflexivity.
Qed.

Lemma firstPage_reachable f parse (es : list Event) :
  reachable f parse (run f es firstPage).
Proof.
  apply reachable_run. apply (reach_mount f parse None). reflexivity.
Qed.

Lemma latinLowerCase_latin (s : jsstring) :
  forallb isLatin s = true -> latinLowerCase s = map lowerLatin s.
Proof. reflexivity. Qed.

(** C1 as stated fails whatever [toLowerCase] is: with a blank typed against
    a stored answer that is empty, the two strings trimmed and in lower case
    are the same, and the submission gives no verdict. *)
Lemma blank_answer_not_judged :
  ~ exists toLowerCase : jsstring -> jsstring,
      forall (s : App) (q : Question),
        index (questions s) (currentQuestionIndex s) = Some q ->
        (judgement (handleAnswerSubmit toLowerCase s) = JudgedCorrect
         <-> toLowerCase (trim (userAnswer s)) = toLowerCase (trim (answer q))).
Proof.
  intros [f H].
  destruct (H askingNothing {| question := lit "?"; answer := [] |} eq_refl) as [_ Hjudged].
  specialize (Hjudged eq_refl). discriminate Hjudged.
Qed.

Lemma handleAnswerSubmit_judges_witness :
  judgement (handleAnswerSubmit latinLowerCase (askingSeven (lit "7 "))) = JudgedCorrect
  /\ judgement (handleAnswerSubmit latinLowerCase (askingSeven (lit "7.0"))) = JudgedIncorrect.
Proof.
  split.
  - destruct (handleAnswerSubmit_judges latinLowerCase latinLowerCase_latin
                (askingSeven (lit "7 ")) {| question := lit "3 + 4 = ?"; answer := lit "7" |}
                eq_refl) as (_ & _ & _ & Hright & _).
    + discriminate.
    + apply Hright; reflexivity.
  - destruct (handleAnswerSubmit_judges latinLowerCase latinLowerCase_latin
                (askingSeven (lit "7.0")) {| question := lit "3 + 4 = ?"; answer := lit "7" |}
                eq_refl) as (_ & _ & _ & _ & Hwrong).
    + discriminate.
    + apply Hwrong; reflexivity.
Defined.

Lemma empty_answer_is_ignored_witness :
  trim (userAnswer (app (sevenPage (lit "   ")))) = []
  /\ dispatch latinLowerCase SubmitAnswer (sevenPage (lit "   ")) = sevenPage (lit "   ").
Proof.
  split; [reflexivity|].
  destruct (empty_answer_is_ignored latinLowerCase (sevenPage (lit "   ")) eq_refl)
    as (_ & _ & Hsame).
  exact Hsame.
Defined.

Lemma hint_request_spends_one_coin_witness :
  0 < hintCoins (app (sevenPage [])) /\ hintUsed (app (sevenPage [])) = false
  /\ hintCoins (app (handleGetHint (sevenPage []))) = 3 - 1
  /\ hint (app (handleGetHint_settled None (handleGetHint (sevenPage [])))) = Some hintApology.
Proof.
  split; [reflexivity|]. split; [reflexivity|].
  destruct (hint_request_spends_one_coin latinLowerCase (sevenPage [])) as (_ & _ & Hgranted).
  destruct (Hgranted eq_refl eq_refl) as (Hcoins & _ & _ & Hsettled).
  split; [exact Hcoins|].
  apply (Hsettled None).
Defined.

Lemma second_hint_request_is_ignored_witness :
  hintUsed (app (handleGetHint (sevenPage []))) = true
  /\ handleGetHint (handleGetHint (sevenPage [])) = handleGetHint (sevenPage []).
Proof.
  split; [reflexivity|].
  destruct (second_hint_request_is_ignored latinLowerCase (handleGetHint (sevenPage []))
              eq_refl) as (Hsame & _).
  exact Hsame.
Defined.

(** C5 as stated fails whatever the two built-ins are: a batch of six
    questions is taken as it is, and six right answers give a score of 6. *)
Lemma six_questions_score_six :
  ~ exists (toLowerCase : jsstring -> jsstring) (JSON_parse : jsstring -> option JSON),
      forall b : Browser,
        reachable toLowerCase JSON_parse b ->
        0 <= score (app b) <= 5 /\ 0 <= hintCoins (app b) <= 3.
Proof.
  intros (f & parse & H).
  destruct (H _ (firstPage_reachable f parse sixRightAnswers)) as [Hscore _].
  rewrite sixRightAnswers_score in Hscore. lia.
Qed.

Lemma session_bounds_witness :
  reachable latinLowerCase parseNullOrEmptyArray (run latinLowerCase oneQuestionQuiz firstPage)
  /\ 0 <= score (app (run latinLowerCase oneQuestionQuiz firstPage)) <= 1
  /\ 0 <= hintCoins (app (run latinLowerCase oneQuestionQuiz firstPage)) <= 3.
Proof.
  split; [apply firstPage_reachable|].
  destruct (session_bounds latinLowerCase parseNullOrEmptyArray
              (run latinLowerCase oneQuestionQuiz firstPage)
              (firstPage_reachable _ _ _)) as (Hscore & _ & Hcoins & _).
  split; [exact Hscore|exact Hcoins].
Defined.

Lemma generation_settles_witness :
  reachable latinLowerCase parseNullOrEmptyArray (run latinLowerCase untilLoading firstPage)
  /\ quizState (app (run latinLowerCase untilLoading firstPage)) = Loading
  /\ app (dispatch latinLowerCase (QuestionsSettled (Parsed (Some [])))
                   (run latinLowerCase untilLoading firstPage)) = initialApp
  /\ quizState (app (dispatch latinLowerCase (QuestionsSettled (Parsed (Some sixQuestions)))
                              (run latinLowerCase untilLoading firstPage))) = Active
  /\ reachable latinLowerCase parseNullOrEmptyArray
       (run latinLowerCase untilLoadingWithHintPending firstPage)
  /\ quizState (app (run latinLowerCase untilLoadingWithHintPending firstPage)) = Loading
  /\ isHintLoading (app (dispatch latinLowerCase (QuestionsSettled Failed)
                                  (run latinLowerCase untilLoadingWithHintPending firstPage)))
     = isHintLoading (app (run latinLowerCase untilLoadingWithHintPending firstPage)).
Proof.
  split; [apply firstPage_reachable|]. split; [reflexivity|]. split; [|split].
  - apply (generation_settles latinLowerCase parseNullOrEmptyArray
             (run latinLowerCase untilLoading firstPage) (Parsed (Some []))
             (firstPage_reachable _ _ _) eq_refl).
  - apply (generation_settles latinLowerCase parseNullOrEmptyArray
             (run latinLowerCase untilLoading firstPage) (Parsed (Some sixQuestions))
             (firstPage_reachable _ _ _) eq_refl).
  - split; [apply firstPage_reachable|]. split; [reflexivity|].
    pose proof (generation_settles latinLowerCase parseNullOrEmptyArray
                  (run latinLowerCase untilLoadingWithHintPending firstPage) Failed
                  (firstPage_reachable _ _ _) eq_refl) as Hreset.
    cbv beta zeta iota in Hreset.
    destruct Hreset as (_ & _ & _ & _ & _ & _ & _ & _ & _ & _ & _ & _ & _ & _ & Hflag & _).
    exact Hflag.
Defined.

Lemma run_snoc f (es : list Event) (e : Event) (b : Browser) :
  run f (es ++ [e]) b = dispatch f e (run f es b).
Proof. unfold run. now rewrite fold_left_app. Qed.

(** A hint asked in one quiz and not answered is still loading when the
    questions of the next quiz fail to arrive, whatever [toLowerCase] does. *)
Lemma hint_still_loading_after_failure f :
  quizState (app (run f untilLoadingWithHintPending firstPage)) = Loading
  /\ isHintLoading (app (run f (untilLoadingWithHintPending ++ [QuestionsSettled Failed])
                             firstPage)) = true
  /\ hintRequests (run f (untilLoadingWithHintPending ++ [QuestionsSettled Failed]) firstPage)
     = [lit "1 x 1 = ?"].
Proof.
  unfold untilLoadingWithHintPending, firstPage. cbn [List.app].
  split; [|split]; run_events; reflexivity.
Qed.

(** C6 as stated fails whatever the two built-ins are: the reset after a
    failed generation is not a full one.  On the loading screen of a second
    quiz, with a hint of the first quiz still asked for, the failure leaves
    [isHintLoading] set (and the hint request in flight). *)
Lemma failed_generation_keeps_hint_loading :
  ~ exists (toLowerCase : jsstring -> jsstring) (JSON_parse : jsstring -> option JSON),
      forall b : Browser,
        reachable toLowerCase JSON_parse b ->
        quizState (app b) = Loading ->
        quizState (app (dispatch toLowerCase (QuestionsSettled Failed) b)) = Idle
        /\ hint (app (dispatch toLowerCase (QuestionsSettled Failed) b)) = None
        /\ hintUsed (app (dispatch toLowerCase (QuestionsSettled Failed) b)) = false
        /\ isHintLoading (app (dispatch toLowerCase (QuestionsSettled Failed) b)) = false.
Proof.
  intros (f & parse & H).
  destruct (hint_still_loading_after_failure f) as (Hloading & Hflag & _).
  destruct (H _ (firstPage_reachable f parse untilLoadingWithHintPending) Hloading)
    as (_ & _ & _ & Hreset).
  rewrite run_snoc in Hflag. rewrite Hreset in Hflag. discriminate Hflag.
Qed.

Lemma second_save_is_ignored_witness :
  reachable latinLowerCase parseNullOrEmptyArray (run latinLowerCase oneQuestionQuiz firstPage)
  /\ quizState (app (run latinLowerCase oneQuestionQuiz firstPage)) = Finished
  /\ dispatch latinLowerCase (SaveScore 1700000000001 true)
       (dispatch latinLowerCase (SaveScore 1700000000000 true)
          (run latinLowerCase oneQuestionQuiz firstPage))
     = dispatch latinLowerCase (SaveScore 1700000000000 true)
         (run latinLowerCase oneQuestionQuiz firstPage).
Proof.
  split; [apply firstPage_reachable|]. split; [reflexivity|].
  destruct (second_save_is_ignored latinLowerCase parseNullOrEmptyArray
              (run latinLowerCase oneQuestionQuiz firstPage) 1700000000000 1700000000001 true
              (firstPage_reachable _ _ _) eq_refl) as (_ & Hsame & _).
  exact Hsame.
Defined.

Lemma saved_table_capped_and_sorted_witness :
  category (app finishedPage) = Some Algebra /\ difficulty (app finishedPage) = Some Hard
  /\ (List.length (highScores (app (handleSaveScore 1700000000000 true finishedPage))) <= 10)%nat
  /\ StronglySorted ranksBefore (highScores (app (handleSaveScore 1700000000000 true finishedPage))).
Proof.
  split; [reflexivity|]. split; [reflexivity|].
  destruct (saved_table_capped_and_sorted finishedPage 1700000000000 true Algebra Hard
              eq_refl eq_refl) as (_ & Hlen & Hsorted & _).
  split; [exact Hlen|exact Hsorted].
Defined.

(** C7 as stated fails for every [JSON.parse] that reads the text [null] as
    [null]: the load makes [null] the table, which is not even an array. *)
Lemma stored_null_is_no_table :
  ~ exists JSON_parse : jsstring -> option JSON,
      JSON_parse (lit "null") = Some JNull
      /\ forall entry : option jsstring, isArray (loadHighScores JSON_parse entry) = true.
Proof.
  intros (parse & Hnull & Htable).
  specialize (Htable (Some (lit "null"))).
  unfold loadHighScores in Htable; simpl in Htable.
  rewrite Hnull in Htable. discriminate Htable.
Qed.

Lemma load_falls_back_to_empty_witness :
  parseNullOrEmptyArray (lit "[{score:") = None
  /\ loadHighScores parseNullOrEmptyArray (Some (lit "[{score:")) = JArray []
  /\ loadHighScores parseNullOrEmptyArray (Some (lit "null")) = JNull.
Proof.
  split; [reflexivity|].
  destruct (load_falls_back_to_empty parseNullOrEmptyArray (Some (lit "[{score:")))
    as (_ & Hbad & _).
  destruct (load_falls_back_to_empty parseNullOrEmptyArray (Some (lit "null")))
    as (_ & _ & Hgood).
  split.
  - apply Hbad. right; right. exists (lit "[{score:"). split; reflexivity.
  - apply (Hgood (lit "null") JNull); [reflexivity|discriminate|reflexivity].
Defined.

(** ** Further properties of the code *)

(** *** Trimming *)

Lemma trimStart_blank (p : jsstring) :
  forallb isWhiteSpace p = true <-> trimStart p = [].
Proof.
  induction p as [|c p IH]; simpl; [tauto|].
  destruct (isWhiteSpace c); simpl; [exact IH|].
  split; discriminate.
Qed.

Lemma trimStart_pad_left (p a : jsstring) :
  forallb isWhiteSpace p = true -> trimStart (p ++ a) = trimStart a.
Proof.
  induction p as [|c p IH]; simpl; [reflexivity|].
  destruct (isWhiteSpace c); simpl; [exact IH|discriminate].
Qed.

Lemma trimStart_pad_right (a p : jsstring) :
  trimStart a <> [] -> trimStart (a ++ p) = trimStart a ++ p.
Proof.
  induction a as [|c a IH]; simpl; [congruence|].
  destruct (isWhiteSpace c); [exact IH|reflexivity].
Qed.

Lemma forallb_rev {A} (f : A -> bool) (l : list A) :
  forallb f l = true -> forallb f (rev l) = true.
Proof.
  rewrite !forallb_forall. intros H x Hx. apply H. now apply in_rev.
Qed.

Lemma trimEnd_pad_right (a p : jsstring) :
  forallb isWhiteSpace p = true -> trimEnd (a ++ p) = trimEnd a.
Proof.
  intros Hp. unfold trimEnd. rewrite rev_app_distr.
  rewrite trimStart_pad_left by now apply forallb_rev. reflexivity.
Qed.

Lemma trim_pad (p1 a p2 : jsstring) :
  forallb isWhiteSpace p1 = true -> forallb isWhiteSpace p2 = true ->
  trim (p1 ++ a ++ p2) = trim a.
Proof.
  intros H1 H2. unfold trim. rewrite trimStart_pad_left by assumption.
  destruct (trimStart a) as [|c rest] eqn:Ha.
  - assert (Hall : forallb isWhiteSpace (a ++ p2) = true).
    { rewrite forallb_app. apply trimStart_blank in Ha. now rewrite Ha, H2. }
    apply trimStart_blank in Hall. now rewrite Hall.
  - rewrite trimStart_pad_right by (rewrite Ha; discriminate).
    rewrite Ha. now apply trimEnd_pad_right.
Qed.

Lemma trimStart_keeps (P : Z -> bool) (s : jsstring) :
  forallb P s = true -> forallb P (trimStart s) = true.
Proof.
  induction s as [|c s IH]; simpl; [reflexivity|].
  intros H. apply andb_true_iff in H as [Hc Hs].
  destruct (isWhiteSpace c); [now apply IH|].
  simpl. now rewrite Hc, Hs.
Qed.

Lemma trim_keeps (P : Z -> bool) (s : jsstring) :
  forallb P s = true -> forallb P (trim s) = true.
Proof.
  intros H. unfold trim, trimEnd.
  apply forallb_rev, trimStart_keeps, forallb_rev, trimStart_keeps, H.
Qed.

(** *** The table *)

Lemma sorted_app_pairs {A} (R : A -> A -> Prop) (l1 l2 : list A) :
  StronglySorted R (l1 ++ l2) -> forall x y, In x l1 -> In y l2 -> R x y.
Proof.
  induction l1 as [|z l1 IH]; simpl; intros Hs x y Hx Hy; [contradiction|].
  apply StronglySorted_inv in Hs as [Hs Hall].
  destruct Hx as [->|Hx]; [|now apply IH].
  eapply Forall_forall in Hall; [exact Hall|].
  apply in_or_app. now right.
Qed.

Lemma sort_compareScores_sorted (l : list HighScore.t) :
  StronglySorted ranksBefore (sort compareScores l).
Proof.
  apply sort_sorted.
  - apply compareScores_ranksBefore.
  - apply ranksBefore_total.
  - apply ranksBefore_trans.
Qed.

(** X1.  The table after a save keeps the best ten of the old entries and the
    new one: together with the entries left out it is a rearrangement of the
    old table with the new entry added, every entry kept ranks before every
    entry left out, the table has [min 10 (n + 1)] entries for an old table of
    [n], and with fewer than ten old entries nothing is left out. *)
Theorem updatedScores_keeps_the_best (hs : list HighScore.t) (newScore : HighScore.t) :
  exists dropped : list HighScore.t,
    Permutation (hs ++ [newScore]) (updatedScores hs newScore ++ dropped)
    /\ (forall kept out, In kept (updatedScores hs newScore) -> In out dropped ->
                         ranksBefore kept out)
    /\ List.length (updatedScores hs newScore) = Nat.min 10 (List.length hs + 1)
    /\ ((List.length hs < 10)%nat -> dropped = [] /\ In newScore (updatedScores hs newScore)).
Proof.
  exists (skipn 10 (sort compareScores (hs ++ [newScore]))).
  unfold updatedScores, slice0.
  pose proof (sort_perm compareScores (hs ++ [newScore])) as Hperm.
  assert (Hlen : List.length (sort compareScores (hs ++ [newScore])) = (List.length hs + 1)%nat).
  { rewrite <- (Permutation_length Hperm), length_app. reflexivity. }
  split; [now rewrite firstn_skipn|].
  split.
  { intros kept out Hk Ho.
    apply (sorted_app_pairs ranksBefore
             (firstn 10 (sort compareScores (hs ++ [newScore])))
             (skipn 10 (sort compareScores (hs ++ [newScore])))); try assumption.
    rewrite firstn_skipn. apply sort_compareScores_sorted. }
  split; [now rewrite length_firstn, Hlen|].
  intros Hfew.
  assert (Hall : firstn 10 (sort compareScores (hs ++ [newScore]))
                 = sort compareScores (hs ++ [newScore])).
  { apply firstn_all2. lia. }
  split.
  - apply skipn_all2. lia.
  - rewrite Hall. eapply Permutation_in; [exact Hperm|].
    apply in_or_app. right. now left.
Qed.

Section Further.

Variable toLowerCase : jsstring -> jsstring.
Variable JSON_parse : jsstring -> option JSON.

Hypothesis toLowerCase_latin :
  forall s, forallb isLatin s = true -> toLowerCase s = map lowerLatin s.

Local Notation submit := (handleAnswerSubmit toLowerCase).
Local Notation step := (dispatch toLowerCase).
Local Notation reachable' := (reachable toLowerCase JSON_parse).

(** *** The comparison *)

(** X2.  Blanks typed before or after an answer, or standing around the
    stored answer, do not change the verdict of a submission. *)
Theorem verdict_ignores_padding (s : App) (typed before after : jsstring)
    (Hbefore : forallb isWhiteSpace before = true)
    (Hafter : forallb isWhiteSpace after = true) :
  (forall stored, isCorrect toLowerCase (before ++ typed ++ after) stored
                  = isCorrect toLowerCase typed stored)
  /\ (forall stored, isCorrect toLowerCase stored (before ++ typed ++ after)
                     = isCorrect toLowerCase stored typed)
  /\ judgement (submit (s |> setUserAnswer (before ++ typed ++ after)))
     = judgement (submit (s |> setUserAnswer typed)).
Proof.
  pose proof (trim_pad before typed after Hbefore Hafter) as Htrim.
  split; [|split].
  - intros stored. unfold isCorrect. now rewrite Htrim.
  - intros stored. unfold isCorrect. now rewrite Htrim.
  - unfold handleAnswerSubmit, isCorrect. simpl. rewrite Htrim.
    destruct (truthy (trim typed)); simpl; [|reflexivity].
    destruct (index (questions s) (currentQuestionIndex s)) as [q|]; [|reflexivity].
    destruct (str_eqb (toLowerCase (trim typed)) (toLowerCase (trim (answer q)))); reflexivity.
Qed.

(** X3.  On answers written in Basic Latin the comparison does not see the
    case of the letters: it accepts exactly when the two trimmed strings are
    the same once [A]..[Z] are replaced by [a]..[z]. *)
Theorem verdict_ignores_latin_case (typed stored : jsstring)
    (Htyped : forallb isLatin typed = true) (Hstored : forallb isLatin stored = true) :
  isCorrect toLowerCase typed stored = true
  <-> map lowerLatin (trim typed) = map lowerLatin (trim stored).
Proof.
  unfold isCorrect. rewrite str_eqb_eq.
  rewrite (toLowerCase_latin (trim typed)) by now apply trim_keeps.
  rewrite (toLowerCase_latin (trim stored)) by now apply trim_keeps.
  reflexivity.
Qed.

(** *** The pages of a session *)

Lemma inv_current_question (b : Browser) :
  sessionInv b ->
  quizState (app b) = Active \/ quizState (app b) = Feedback ->
  exists q, index (questions (app b)) (currentQuestionIndex (app b)) = Some q.
Proof.
  intros Hb Hq. unfold sessionInv in Hb.
  assert (Hi : 0 <= currentQuestionIndex (app b) < Z.of_nat (List.length (questions (app b)))).
  { destruct Hq as [Hq|Hq]; rewrite Hq in Hb; tauto. }
  unfold index. destruct (Z.ltb_spec (currentQuestionIndex (app b)) 0); [lia|].
  destruct (nth_error (questions (app b)) (Z.to_nat (currentQuestionIndex (app b)))) eqn:Hn;
    [now eexists|].
  apply nth_error_None in Hn. lia.
Qed.

(** X4.  On every page of a session that shows a question, the current index
    is within the batch, so the lookups of the question in [renderContent],
    [handleAnswerSubmit] and [handleGetHint] find one and a submission does
    not throw; and the score is at most the number of questions answered so
    far. *)
Theorem quiz_page_has_its_question (b : Browser) (Hb : reachable' b)
    (Hquiz : quizState (app b) = Active \/ quizState (app b) = Feedback) :
  (exists q, index (questions (app b)) (currentQuestionIndex (app b)) = Some q)
  /\ submit (app b) <> None
  /\ 0 <= currentQuestionIndex (app b) < Z.of_nat (List.length (questions (app b)))
  /\ (quizState (app b) = Active -> score (app b) <= currentQuestionIndex (app b))
  /\ (quizState (app b) = Feedback -> score (app b) <= currentQuestionIndex (app b) + 1).
Proof.
  pose proof (reachable_inv toLowerCase JSON_parse b Hb) as Hinv.
  destruct (inv_current_question b Hinv Hquiz) as [q Hq].
  split; [now exists q|].
  split.
  { unfold handleAnswerSubmit. rewrite Hq.
    destruct (negb (truthy (trim (userAnswer (app b))))); discriminate. }
  unfold sessionInv in Hinv.
  destruct Hquiz as [Hs|Hs]; rewrite Hs in Hinv;
    (split; [tauto|]); split; intros Hs'; try congruence; tauto.
Qed.

Ltac open_page' b :=
  let s := fresh "s" in
  destruct b as [s ? ? ? ?]; destruct s;
  unfold sessionInv, requestsInv, fresh, enabled in *; simpl in *.

(** X5.  The state of a session moves only along Idle to Loading, Loading
    to Active or back to Idle, Active to Feedback, Feedback to Active or
    Finished, and Finished to Idle; every other event leaves it where it
    is. *)
Theorem quizState_moves (e : Event) (b : Browser) (Hb : reachable' b) :
  allowedTransition (quizState (app b)) (quizState (app (step e b))) = true.
Proof.
  pose proof (reachable_inv toLowerCase JSON_parse b Hb) as Hinv.
  unfold dispatch. destruct (enabled e b) eqn:Hen;
    [|now destruct (quizState (app b))].
  destruct e as [c| |d|r|value| |r| | |now stored| | ].
  - open_page' b. destruct quizState0; try discriminate. reflexivity.
  - open_page' b. destruct quizState0; try discriminate. reflexivity.
  - open_page' b. destruct quizState0; try discriminate.
    destruct category0; try discriminate. reflexivity.
  - open_page' b.
    destruct quizState0;
      try (exfalso; assert (quizRequests0 = []) by tauto; subst; discriminate).
    destruct r as [|[qs|]]; simpl; try reflexivity.
    destruct (0 <? Z.of_nat (List.length qs)); reflexivity.
  - open_page' b. destruct quizState0; try discriminate. reflexivity.
  - unfold handle, handleGetHint.
    destruct ((hintCoins (app b) <=? 0) || hintUsed (app b));
      [now destruct (quizState (app b))|].
    destruct (index (questions (app b)) (currentQuestionIndex (app b)));
      simpl; now destruct (quizState (app b)).
  - simpl. now destruct (quizState (app b)).
  - unfold handle, handleAnswerSubmit.
    destruct (negb (truthy (trim (userAnswer (app b)))));
      [destruct b; simpl; now destruct (quizState app0)|].
    destruct (index (questions (app b)) (currentQuestionIndex (app b))) as [q|];
      [|now destruct (quizState (app b))].
    unfold enabled in Hen.
    destruct (isCorrect toLowerCase (userAnswer (app b)) (answer q)); simpl;
      destruct (quizState (app b)); try discriminate; reflexivity.
  - unfold handle, withApp, handleNextQuestion. unfold enabled in Hen.
    destruct (currentQuestionIndex (app b) <? Z.of_nat (List.length (questions (app b))) - 1);
      simpl; destruct (quizState (app b)); try discriminate; reflexivity.
  - unfold handle, handleSaveScore.
    destruct (category (app b)); [|now destruct (quizState (app b))].
    destruct (difficulty (app b)); [|now destruct (quizState (app b))].
    destruct stored; simpl; now destruct (quizState (app b)).
  - open_page' b. destruct quizState0; try discriminate. reflexivity.
  - open_page' b. destruct quizState0; try discriminate. reflexivity.
Qed.

(** X6.  The high-score table and the stored entry change only when a score
    is saved or the scores are cleared: every other event, a reset of the
    quiz among them, leaves both as they are. *)
Theorem table_changes_only_on_save_and_clear (e : Event) (b : Browser)
    (Hsave : forall now stored, e <> SaveScore now stored) (Hclear : e <> ClearScores) :
  highScores (app (step e b)) = highScores (app b)
  /\ localStorage (step e b) = localStorage b.
Proof.
  unfold dispatch. destruct (enabled e b); [|now split].
  destruct e as [c| |d|r|value| |r| | |now stored| | ]; simpl; try (now split).
  - destruct (category (app b)); now split.
  - destruct r as [|[qs|]]; simpl; try (now split).
    destruct (0 <? Z.of_nat (List.length qs)); now split.
  - unfold handleGetHint.
    destruct ((hintCoins (app b) <=? 0) || hintUsed (app b)); [now split|].
    destruct (index (questions (app b)) (currentQuestionIndex (app b))); now split.
  - unfold handleAnswerSubmit.
    destruct (negb (truthy (trim (userAnswer (app b))))); simpl; [now split|].
    destruct (index (questions (app b)) (currentQuestionIndex (app b))) as [q|]; [|now split].
    destruct (isCorrect toLowerCase (userAnswer (app b)) (answer q)); now split.
  - unfold handleNextQuestion.
    destruct (currentQuestionIndex (app b) <? Z.of_nat (List.length (questions (app b))) - 1);
      now split.
  - exfalso. now apply (Hsave now stored).
Qed.

(** X7.  The hint coins go down only by a granted hint request, by one, and
    go back to three only by a reset of the quiz; every other event leaves
    them as they are. *)
Theorem hintCoins_change_only_on_hint_and_reset (e : Event) (b : Browser) :
  hintCoins (app (step e b)) = hintCoins (app b)
  \/ (e = GetHint /\ 0 < hintCoins (app b)
      /\ hintCoins (app (step e b)) = hintCoins (app b) - 1)
  \/ (app (step e b) = resetQuiz (app b) /\ hintCoins (app (step e b)) = 3).
Proof.
  unfold dispatch. destruct (enabled e b); [|now left].
  destruct e as [c| |d|r|value| |r| | |now stored| | ]; simpl; try (now left).
  - left. now destruct (category (app b)).
  - destruct r as [|[qs|]]; simpl; try (right; right; now split).
    destruct (0 <? Z.of_nat (List.length qs)); [now left|right; right; now split].
  - unfold handleGetHint.
    destruct (Z.leb_spec (hintCoins (app b)) 0); simpl; [now left|].
    destruct (hintUsed (app b)); [now left|].
    right; left.
    destruct (index (questions (app b)) (currentQuestionIndex (app b))); simpl; auto.
  - left. unfold handleAnswerSubmit.
    destruct (negb (truthy (trim (userAnswer (app b))))); simpl; [reflexivity|].
    destruct (index (questions (app b)) (currentQuestionIndex (app b))) as [q|]; [|reflexivity].
    now destruct (isCorrect toLowerCase (userAnswer (app b)) (answer q)).
  - left. unfold handleNextQuestion.
    now destruct (currentQuestionIndex (app b) <? Z.of_nat (List.length (questions (app b))) - 1).
  - left. unfold handleSaveScore.
    destruct (category (app b)); [|reflexivity]. destruct (difficulty (app b)); [|reflexivity].
    now destruct stored.
  - right; right. now split.
Qed.

(** X8.  The questions of a quiz are never changed once loaded: an event
    either leaves the batch as it is, or is the arrival of a batch, or resets
    the quiz. *)
Theorem questions_fixed_once_loaded (e : Event) (b : Browser) :
  questions (app (step e b)) = questions (app b)
  \/ (exists qs, e = QuestionsSettled (Parsed (Some qs)) /\ questions (app (step e b)) = qs)
  \/ app (step e b) = resetQuiz (app b).
Proof.
  unfold dispatch. destruct (enabled e b); [|now left].
  destruct e as [c| |d|r|value| |r| | |now stored| | ]; simpl; try (now left).
  - left. now destruct (category (app b)).
  - destruct r as [|[qs|]]; simpl; try (now right; right).
    destruct (0 <? Z.of_nat (List.length qs)); [|now right; right].
    right; left. now exists qs.
  - left. unfold handleGetHint.
    destruct ((hintCoins (app b) <=? 0) || hintUsed (app b)); [reflexivity|].
    now destruct (index (questions (app b)) (currentQuestionIndex (app b))).
  - left. unfold handleAnswerSubmit.
    destruct (negb (truthy (trim (userAnswer (app b))))); simpl; [reflexivity|].
    destruct (index (questions (app b)) (currentQuestionIndex (app b))) as [q|]; [|reflexivity].
    now destruct (isCorrect toLowerCase (userAnswer (app b)) (answer q)).
  - left. unfold handleNextQuestion.
    now destruct (currentQuestionIndex (app b) <? Z.of_nat (List.length (questions (app b))) - 1).
  - left. unfold handleSaveScore.
    destruct (category (app b)); [|reflexivity]. destruct (difficulty (app b)); [|reflexivity].
    now destruct stored.
  - now right; right.
Qed.

(** X17.  On the first screen, choosing a category and going back to the
    categories gives the page from before the choice. *)
Theorem back_undoes_category_choice (b : Browser) (c : Category)
    (Hidle : quizState (app b) = Idle) (Hnone : category (app b) = None) :
  enabled (SelectCategory c) b = true
  /\ enabled BackToCategories (step (SelectCategory c) b) = true
  /\ step BackToCategories (step (SelectCategory c) b) = b.
Proof.
  destruct b as [s ls al qr hr]; destruct s; simpl in Hidle, Hnone; subst.
  repeat split.
Qed.

(** *** The requests in flight *)

Lemma mount_requests (entry : option jsstring) (b : Browser) :
  mount JSON_parse entry = Some b -> requestsInv b.
Proof.
  unfold mount. destruct (asHighScores (loadHighScores JSON_parse entry)); simpl; [|discriminate].
  intros [= <-]. unfold requestsInv; simpl. now split.
Qed.

Lemma handle_requests (e : Event) (b : Browser) :
  sessionInv b -> requestsInv b -> enabled e b = true ->
  requestsInv (handle toLowerCase e b).
Proof.
  intros Hinv Hreq Hen.
  destruct e as [c| |d|r|value| |r| | |now stored| | ].
  - open_page' b. destruct quizState0; try discriminate. tauto.
  - open_page' b. destruct quizState0; try discriminate. tauto.
  - open_page' b. destruct quizState0; try discriminate.
    destruct category0 as [c|]; try discriminate. simpl.
    destruct Hreq as [Hh ->]. split; [exact Hh|].
    exists c, d. repeat split.
  - open_page' b.
    destruct quizState0;
      try (exfalso; assert (quizRequests0 = []) by tauto; subst; discriminate).
    destruct Hreq as [Hh (c & d & _ & _ & ->)].
    destruct r as [|[qs|]]; simpl; try (now split).
    destruct (0 <? Z.of_nat (List.length qs)); now split.
  - open_page' b. destruct quizState0; try discriminate. tauto.
  - assert (Hact : quizState (app b) = Active).
    { unfold enabled in Hen. now destruct (quizState (app b)). }
    destruct (inv_current_question b Hinv (or_introl Hact)) as [q Hq].
    unfold handle, handleGetHint. rewrite Hq.
    open_page' b. subst quizState0.
    apply negb_true_iff in Hen.
    apply orb_false_iff in Hen as [Hen Hload]. rewrite Hen. subst isHintLoading0.
    destruct Hreq as [-> Hquiz]. simpl. split; [now eexists|exact Hquiz].
  - open_page' b.
    destruct isHintLoading0.
    + destruct Hreq as [[problem ->] Hquiz]. simpl. split; [reflexivity|].
      now destruct quizState0.
    + destruct Hreq as [-> _]. now destruct quizState0.
  - unfold handle, handleAnswerSubmit.
    destruct (negb (truthy (trim (userAnswer (app b))))); [now destruct b|].
    destruct (index (questions (app b)) (currentQuestionIndex (app b))) as [q|]; [|assumption].
    destruct (isCorrect toLowerCase (userAnswer (app b)) (answer q));
      open_page' b; (destruct quizState0; try discriminate); tauto.
  - unfold handle, withApp, handleNextQuestion.
    destruct (currentQuestionIndex (app b) <? Z.of_nat (List.length (questions (app b))) - 1);
      open_page' b; (destruct quizState0; try discriminate); tauto.
  - unfold handle, handleSaveScore.
    destruct (category (app b)) eqn:Hc; [|assumption].
    destruct (difficulty (app b)) eqn:Hd; [|assumption].
    destruct stored; open_page' b; (destruct quizState0; try discriminate); tauto.
  - open_page' b. destruct quizState0; try discriminate. tauto.
  - open_page' b. destruct quizState0; try discriminate. tauto.
Qed.

Lemma reachable_requests (b : Browser) : reachable' b -> sessionInv b /\ requestsInv b.
Proof.
  induction 1 as [entry b Hm|e b Hb [IHs IHr]].
  - split; [eapply mount_inv|eapply mount_requests]; eassumption.
  - split; [now apply step_inv|].
    unfold dispatch. destruct (enabled e b) eqn:Hen; [now apply handle_requests|assumption].
Qed.

(** X9.  At most one hint request is in flight at any time, the flag
    [isHintLoading] is set exactly while one is, and the hint button is
    enabled only when none is. *)
Theorem one_hint_request_in_flight (b : Browser) (Hb : reachable' b) :
  (List.length (hintRequests b) <= 1)%nat
  /\ (isHintLoading (app b) = true <-> hintRequests b <> [])
  /\ (enabled GetHint b = true -> hintRequests b = []).
Proof.
  destruct (reachable_requests b Hb) as [_ [Hhint _]].
  destruct (isHintLoading (app b)) eqn:Hload.
  - destruct Hhint as [problem Hp]. rewrite Hp. simpl.
    split; [lia|]. split; [split; [discriminate|reflexivity]|].
    unfold enabled. rewrite Hload.
    destruct (quizState (app b)); try discriminate.
    rewrite orb_true_r. discriminate.
  - rewrite Hhint. simpl. split; [lia|]. split; [split; congruence|reflexivity].
Qed.

(** X10.  A batch of questions is awaited exactly in the Loading state; there
    is then one request, made for the category and the difficulty on the
    page, and until it settles no control of the page does anything. *)
Theorem loading_awaits_one_batch (b : Browser) (Hb : reachable' b) :
  (quizState (app b) = Loading <-> quizRequests b <> [])
  /\ (List.length (quizRequests b) <= 1)%nat
  /\ (forall c d, In (c, d) (quizRequests b) ->
                  category (app b) = Some c /\ difficulty (app b) = Some d)
  /\ (quizState (app b) = Loading ->
      forall e, (forall r, e <> QuestionsSettled r) -> (forall r, e <> HintSettled r) ->
                step e b = b).
Proof.
  destruct (reachable_requests b Hb) as [_ [_ Hquiz]].
  destruct (quizState (app b)) eqn:Hs;
    try (rewrite Hquiz; simpl; split; [split; congruence|];
         split; [lia|]; split; [contradiction|discriminate]).
  destruct Hquiz as (c & d & Hc & Hd & Hq). rewrite Hq. simpl.
  split; [split; [discriminate|reflexivity]|].
  split; [lia|].
  split.
  { intros c' d' [[= <- <-]|[]]. now split. }
  intros _ e Hne1 Hne2. unfold dispatch.
  assert (Hen : enabled e b = false).
  { unfold enabled. rewrite Hs. destruct e; try reflexivity.
    - exfalso. now apply (Hne1 r).
    - exfalso. now apply (Hne2 r). }
  now rewrite Hen.
Qed.

(** X11.  A granted hint request on a page of a session sends one request,
    for the text of the current question, and sets the loading flag: the
    lookup of the question does not fail there. *)
Theorem granted_hint_asks_about_current_question (b : Browser) (Hb : reachable' b)
    (Hen : enabled GetHint b = true) :
  exists q,
    index (questions (app b)) (currentQuestionIndex (app b)) = Some q
    /\ hintRequests (step GetHint b) = [question q]
    /\ isHintLoading (app (step GetHint b)) = true
    /\ hintUsed (app (step GetHint b)) = true.
Proof.
  destruct (reachable_requests b Hb) as [Hinv [Hhint _]].
  assert (Hact : quizState (app b) = Active).
  { unfold enabled in Hen. now destruct (quizState (app b)). }
  destruct (inv_current_question b Hinv (or_introl Hact)) as [q Hq].
  exists q. split; [exact Hq|].
  unfold dispatch. rewrite Hen.
  unfold enabled in Hen. rewrite Hact in Hen.
  apply negb_true_iff in Hen. apply orb_false_iff in Hen as [Hguard Hload].
  rewrite Hload in Hhint.
  unfold handle, handleGetHint. rewrite Hguard, Hq. simpl. rewrite Hhint.
  repeat split.
Qed.

(** *** A whole quiz *)

Lemma run_app f (es1 es2 : list Event) (b : Browser) :
  run f (es1 ++ es2) b = run f es2 (run f es1 b).
Proof. unfold run. apply fold_left_app. Qed.

Lemma index_middle {A} (done rest : list A) (q : A) :
  index (done ++ q :: rest) (Z.of_nat (List.length done)) = Some q.
Proof.
  unfold index. destruct (Z.ltb_spec (Z.of_nat (List.length done)) 0); [lia|].
  rewrite Nat2Z.id, nth_error_app2 by lia.
  now rewrite Nat.sub_diag.
Qed.

Lemma step_change (value : jsstring) (b : Browser) :
  quizState (app b) = Active -> step (ChangeAnswer value) b = withApp (setUserAnswer value) b.
Proof. intros H. unfold dispatch, enabled. now rewrite H. Qed.

Lemma step_submit (b : Browser) (q : Question) :
  quizState (app b) = Active ->
  truthy (trim (userAnswer (app b))) = true ->
  index (questions (app b)) (currentQuestionIndex (app b)) = Some q ->
  step SubmitAnswer b
  = withApp (fun s =>
               (if isCorrect toLowerCase (userAnswer s) (answer q)
                then s |> setScore (score s + 1)
                       |> setFeedback (Some {| message := lit "Correct!"; correct := true |})
                else s |> setFeedback
                            (Some {| message := lit "Incorrect! The answer is " ++ answer q;
                                     correct := false |}))
               |> setQuizState Feedback) b.
Proof.
  intros Hact Htyped Hq. unfold dispatch, enabled. rewrite Hact, Htyped.
  unfold handle, handleAnswerSubmit. rewrite Htyped, Hq. reflexivity.
Qed.

Lemma step_next (b : Browser) :
  quizState (app b) = Feedback -> step NextQuestion b = withApp handleNextQuestion b.
Proof. intros H. unfold dispatch, enabled. now rewrite H. Qed.

(** One round on question [q], the ones before it answered. *)
Lemma answerRound_run (b : Browser) (done rest : list Question) (q : Question)
    (typed : jsstring) :
  quizState (app b) = Active ->
  questions (app b) = done ++ q :: rest ->
  currentQuestionIndex (app b) = Z.of_nat (List.length done) ->
  trim typed <> [] ->
  let b' := run toLowerCase (answerRound typed) b in
  questions (app b') = questions (app b)
  /\ score (app b') = score (app b) + (if isCorrect toLowerCase typed (answer q) then 1 else 0)
  /\ hintCoins (app b') = hintCoins (app b)
  /\ highScores (app b') = highScores (app b)
  /\ match rest with
     | [] => quizState (app b') = Finished
     | _ :: _ => quizState (app b') = Active
                 /\ currentQuestionIndex (app b') = Z.of_nat (List.length (done ++ [q]))
     end.
Proof.
  intros Hact Hqs Hidx Htyped b'.
  assert (Htruthy : truthy (trim typed) = true).
  { destruct (trim typed); [contradiction|reflexivity]. }
  assert (Hlast : (currentQuestionIndex (app b)
                   <? Z.of_nat (List.length (questions (app b))) - 1)
                  = match rest with [] => false | _ :: _ => true end).
  { rewrite Hidx, Hqs, length_app. simpl. destruct rest; simpl.
    - apply Z.ltb_ge. lia.
    - apply Z.ltb_lt. lia. }
  set (b1 := withApp (setUserAnswer typed) b).
  assert (H1 : quizState (app b1) = Active) by exact Hact.
  assert (H2 : truthy (trim (userAnswer (app b1))) = true) by exact Htruthy.
  assert (H3 : index (questions (app b1)) (currentQuestionIndex (app b1)) = Some q).
  { simpl. rewrite Hqs, Hidx. apply index_middle. }
  pose proof (step_submit b1 q H1 H2 H3) as Hsubmit.
  assert (Hrun : b' = withApp handleNextQuestion (step SubmitAnswer b1)).
  { unfold b', answerRound, run. cbn [fold_left].
    rewrite (step_change typed b Hact). fold b1.
    rewrite step_next; [reflexivity|].
    rewrite Hsubmit. simpl. now destruct (isCorrect toLowerCase typed (answer q)). }
  rewrite Hsubmit in Hrun.
  rewrite Hrun. unfold b1, withApp, handleNextQuestion.
  cbn [app userAnswer setUserAnswer].
  destruct (isCorrect toLowerCase typed (answer q));
    cbn [app questions currentQuestionIndex score hintCoins highScores quizState
         setScore setFeedback setQuizState setUserAnswer setHint setHintUsed
         setCurrentQuestionIndex];
    rewrite Hlast; destruct rest;
    cbn [app questions currentQuestionIndex score hintCoins highScores quizState
         setScore setFeedback setQuizState setUserAnswer setHint setHintUsed
         setCurrentQuestionIndex];
    rewrite ?length_app; cbn [List.length]; repeat split; lia.
Qed.

Lemma quizRounds_run (todo : list Question) :
  forall (typed : list jsstring) (done : list Question) (b : Browser),
    todo <> [] ->
    quizState (app b) = Active ->
    questions (app b) = done ++ todo ->
    currentQuestionIndex (app b) = Z.of_nat (List.length done) ->
    List.length typed = List.length todo ->
    Forall (fun a => trim a <> []) typed ->
    let b' := run toLowerCase (quizRounds typed) b in
    quizState (app b') = Finished
    /\ questions (app b') = questions (app b)
    /\ score (app b') = score (app b) + countCorrect toLowerCase typed todo
    /\ hintCoins (app b') = hintCoins (app b)
    /\ highScores (app b') = highScores (app b).
Proof.
  induction todo as [|q rest IH]; intros typed done b Hne Hact Hqs Hidx Hlen Htyped;
    [contradiction|].
  destruct typed as [|a typed]; [discriminate|].
  apply Forall_cons_iff in Htyped as [Ha Htyped]. simpl in Hlen.
  cbv zeta. cbn [quizRounds flat_map]. fold (quizRounds typed).
  rewrite run_app.
  pose proof (answerRound_run b done rest q a Hact Hqs Hidx Ha) as Hround.
  cbv zeta in Hround.
  set (b1 := run toLowerCase (answerRound a) b) in *.
  destruct Hround as (Hq1 & Hs1 & Hc1 & Hh1 & Hnext).
  destruct rest as [|q' rest].
  - destruct typed; [|discriminate]. simpl.
    repeat split; try assumption. rewrite Hs1. lia.
  - destruct Hnext as [Hact1 Hidx1].
    assert (Hqs1 : questions (app b1) = (done ++ [q]) ++ q' :: rest).
    { rewrite Hq1, Hqs, <- app_assoc. reflexivity. }
    destruct (IH typed (done ++ [q]) b1) as (Hf & Hq2 & Hs2 & Hc2 & Hh2);
      try assumption; try discriminate; [lia|].
    repeat split; try congruence.
    rewrite Hs2, Hs1. cbn [countCorrect]. lia.
Qed.

(** X12.  When a batch of [n >= 1] questions arrives on the loading screen
    and the user answers each question with a text that is not blank and moves
    on, then after these [n] rounds the quiz is finished and the score is the
    number of answers the comparison accepts; no hint coin is spent. *)
Theorem quiz_score_counts_right_answers (b : Browser) (qs : list Question)
    (typed : list jsstring)
    (Hb : reachable' b) (Hloading : quizState (app b) = Loading)
    (Hqs : qs <> []) (Hlen : List.length typed = List.length qs)
    (Htyped : Forall (fun a => trim a <> []) typed) :
  let b' := run toLowerCase (QuestionsSettled (Parsed (Some qs)) :: quizRounds typed) b in
  quizState (app b') = Finished
  /\ questions (app b') = qs
  /\ score (app b') = countCorrect toLowerCase typed qs
  /\ 0 <= score (app b') <= Z.of_nat (List.length qs)
  /\ hintCoins (app b') = 3.
Proof.
  intros b'.
  destruct (reachable_requests b Hb) as [Hinv [_ Hquiz]].
  unfold sessionInv, fresh in Hinv. rewrite Hloading in Hinv, Hquiz.
  destruct Hinv as (_ & _ & _ & (_ & Hidx & _ & _ & Hscore & Hcoins & _) & _).
  destruct Hquiz as (c & d & _ & _ & Hreq).
  set (b0 := step (QuestionsSettled (Parsed (Some qs))) b).
  assert (Hb0 : app b0 = (app b |> setQuestions qs |> setQuizState Active)).
  { unfold b0, dispatch, enabled. rewrite Hreq.
    assert (Hen : match QuestionsSettled (Parsed (Some qs)), quizState (app b) with
                  | QuestionsSettled _, _ => true | _, _ => false end = true) by reflexivity.
    destruct (quizState (app b)); simpl;
      (destruct qs; [contradiction|reflexivity]). }
  assert (Hreach0 : reachable' b0) by (unfold b0; now constructor).
  destruct (quizRounds_run qs typed [] b0) as (Hf & Hq & Hs & Hc & _);
    try assumption; try (rewrite Hb0; simpl; assumption); try (now rewrite Hb0).
  change b' with (run toLowerCase (quizRounds typed) b0).
  rewrite Hb0 in Hq, Hs, Hc. simpl in Hq, Hs, Hc.
  split; [exact Hf|]. split; [exact Hq|].
  assert (Hsc : score (app (run toLowerCase (quizRounds typed) b0))
                = countCorrect toLowerCase typed qs) by lia.
  split; [exact Hsc|].
  split; [|lia].
  pose proof (reachable_inv toLowerCase JSON_parse _
                (reachable_run toLowerCase JSON_parse (quizRounds typed) b0 Hreach0)) as Hfin.
  unfold sessionInv in Hfin. rewrite Hf, Hq in Hfin. lia.
Qed.

(** *** Saving *)

Lemma finished_has_category (b : Browser) :
  reachable' b -> quizState (app b) = Finished ->
  exists c d, category (app b) = Some c /\ difficulty (app b) = Some d.
Proof.
  intros Hb Hfin. apply reachable_inv in Hb. unfold sessionInv in Hb.
  rewrite Hfin in Hb. destruct Hb as (_ & Hc & Hd & _).
  destruct (category (app b)) as [c|]; [|contradiction].
  destruct (difficulty (app b)) as [d|]; [|contradiction].
  now exists c, d.
Qed.

Lemma updatedScores_keeps_new (hs : list HighScore.t) (newScore : HighScore.t) :
  (List.length hs < 10)%nat -> In newScore (updatedScores hs newScore).
Proof.
  intros Hfew. unfold updatedScores, slice0.
  pose proof (sort_perm compareScores (hs ++ [newScore])) as Hperm.
  rewrite firstn_all2.
  - eapply Permutation_in; [exact Hperm|]. apply in_or_app. right. now left.
  - rewrite <- (Permutation_length Hperm), length_app. simpl. lia.
Qed.

Lemma step_save (b : Browser) (now : Z) (stored : bool) (c : Category) (d : Difficulty) :
  quizState (app b) = Finished -> scoreSaved (app b) = false ->
  category (app b) = Some c -> difficulty (app b) = Some d ->
  step (SaveScore now stored) b
  = if stored
    then mkBrowser (app b |> setHighScores (updatedScores (highScores (app b))
                                                         (entryOf (app b) c d now))
                          |> setScoreSaved true)
                   (Some (JSON_stringify (updatedScores (highScores (app b))
                                                        (entryOf (app b) c d now))))
                   (alerts b) (quizRequests b) (hintRequests b)
    else withApp (setHighScores (updatedScores (highScores (app b))
                                               (entryOf (app b) c d now))) b.
Proof.
  intros Hfin Hunsaved Hc Hd. unfold dispatch, enabled. rewrite Hfin, Hunsaved.
  unfold handle, handleSaveScore. rewrite Hc, Hd. reflexivity.
Qed.

(** X13.  On the results screen of a session the category and the difficulty
    are set, so a save does save: the table becomes the old one with the entry
    of this quiz (its score, category, difficulty and the time of the save)
    sorted in, an entry is stored, the quiz is marked saved, and with fewer
    than ten old entries the new entry is in the table. *)
Theorem save_records_the_quiz (b : Browser) (now : Z)
    (Hb : reachable' b) (Hfinished : quizState (app b) = Finished)
    (Hunsaved : scoreSaved (app b) = false) :
  exists c d,
    category (app b) = Some c /\ difficulty (app b) = Some d
    /\ highScores (app (step (SaveScore now true) b))
       = updatedScores (highScores (app b)) (entryOf (app b) c d now)
    /\ localStorage (step (SaveScore now true) b) <> None
    /\ scoreSaved (app (step (SaveScore now true) b)) = true
    /\ quizState (app (step (SaveScore now true) b)) = Finished
    /\ ((List.length (highScores (app b)) < 10)%nat ->
        In (entryOf (app b) c d now) (highScores (app (step (SaveScore now true) b)))).
Proof.
  destruct (finished_has_category b Hb Hfinished) as (c & d & Hc & Hd).
  exists c, d. rewrite (step_save b now true c d Hfinished Hunsaved Hc Hd). simpl.
  repeat split; try assumption; try discriminate.
  apply updatedScores_keeps_new.
Qed.

(** X14.  When the write to [localStorage] fails, the stored entry is the
    one before and the quiz is not marked saved, so the save button stays
    enabled, but the table in memory already holds the new entry: a second
    save that succeeds sorts an entry of the same quiz in once more. *)
Theorem failed_write_leaves_save_open (b : Browser) (now later : Z)
    (Hb : reachable' b) (Hfinished : quizState (app b) = Finished)
    (Hunsaved : scoreSaved (app b) = false) :
  exists c d,
    category (app b) = Some c /\ difficulty (app b) = Some d
    /\ localStorage (step (SaveScore now false) b) = localStorage b
    /\ scoreSaved (app (step (SaveScore now false) b)) = false
    /\ enabled (SaveScore later true) (step (SaveScore now false) b) = true
    /\ highScores (app (step (SaveScore now false) b))
       = updatedScores (highScores (app b)) (entryOf (app b) c d now)
    /\ highScores (app (step (SaveScore later true) (step (SaveScore now false) b)))
       = updatedScores (updatedScores (highScores (app b)) (entryOf (app b) c d now))
                       (entryOf (app b) c d later).
Proof.
  destruct (finished_has_category b Hb Hfinished) as (c & d & Hc & Hd).
  exists c, d.
  rewrite (step_save b now false c d Hfinished Hunsaved Hc Hd).
  set (b1 := withApp (setHighScores (updatedScores (highScores (app b))
                                                   (entryOf (app b) c d now))) b).
  assert (H1 : quizState (app b1) = Finished) by exact Hfinished.
  assert (H2 : scoreSaved (app b1) = false) by exact Hunsaved.
  rewrite (step_save b1 later true c d H1 H2 Hc Hd).
  split; [exact Hc|]. split; [exact Hd|].
  split; [reflexivity|]. split; [exact Hunsaved|].
  split; [unfold enabled; now rewrite H1, H2|].
  split; reflexivity.
Qed.

(** *** A hint that comes late *)

(** X16.  A hint asked on one question and answered only after the user has
    moved on is shown on the next question: there the hint text is the late
    one although no hint was asked on that question, the coin having been
    taken on the earlier one. *)
Theorem late_hint_lands_on_next_question (b : Browser) (text : jsstring)
    (Hb : reachable' b) (Hfeedback : quizState (app b) = Feedback)
    (Hmore : currentQuestionIndex (app b) < Z.of_nat (List.length (questions (app b))) - 1)
    (Hflight : hintRequests b <> []) :
  let b' := run toLowerCase [NextQuestion; HintSettled (Some text)] b in
  quizState (app b') = Active
  /\ currentQuestionIndex (app b') = currentQuestionIndex (app b) + 1
  /\ hint (app b') = Some text
  /\ hintUsed (app b') = false
  /\ hintCoins (app b') = hintCoins (app b)
  /\ isHintLoading (app b') = false
  /\ hintRequests b' = [].
Proof.
  destruct (reachable_requests b Hb) as [_ [Hhint _]].
  assert (Hone : exists problem, hintRequests b = [problem]).
  { destruct (isHintLoading (app b)); [exact Hhint|congruence]. }
  destruct Hone as [problem Hreq].
  intros b'. unfold b', run. cbn [fold_left].
  rewrite (step_next b Hfeedback).
  apply Z.ltb_lt in Hmore.
  unfold dispatch, enabled. cbn [hintRequests withApp]. rewrite Hreq.
  unfold handle, handleGetHint_settled, withApp, handleNextQuestion.
  cbn [app hintRequests]. rewrite Hmore, Hreq. cbn. repeat split.
Qed.

End Further.

(** ** The further properties on concrete pages *)

Lemma updatedScores_keeps_the_best_witness :
  (List.length sampleTable < 10)%nat
  /\ In (HighScore.make 3 Mixed Easy 1700000000500)
        (updatedScores sampleTable (HighScore.make 3 Mixed Easy 1700000000500)).
Proof.
  split; [simpl; lia|].
  destruct (updatedScores_keeps_the_best sampleTable (HighScore.make 3 Mixed Easy 1700000000500))
    as (dropped & _ & _ & _ & Hfew).
  apply Hfew. simpl; lia.
Defined.

Lemma verdict_ignores_padding_witness :
  forallb isWhiteSpace (lit "  ") = true /\ forallb isWhiteSpace [9; 160] = true
  /\ judgement (handleAnswerSubmit latinLowerCase
                  (askingSeven [] |> setUserAnswer (lit "  " ++ lit "7" ++ [9; 160])))
     = judgement (handleAnswerSubmit latinLowerCase (askingSeven [] |> setUserAnswer (lit "7"))).
Proof.
  split; [reflexivity|]. split; [reflexivity|].
  destruct (verdict_ignores_padding latinLowerCase (askingSeven []) (lit "7") (lit "  ") [9; 160]
              eq_refl eq_refl) as (_ & _ & Hsame).
  exact Hsame.
Defined.

Lemma verdict_ignores_latin_case_witness :
  forallb isLatin (lit " TRIANGLE") = true /\ forallb isLatin (lit "Triangle") = true
  /\ isCorrect latinLowerCase (lit " TRIANGLE") (lit "Triangle") = true.
Proof.
  split; [reflexivity|]. split; [reflexivity|].
  apply (verdict_ignores_latin_case latinLowerCase latinLowerCase_latin
           (lit " TRIANGLE") (lit "Triangle") eq_refl eq_refl).
  reflexivity.
Defined.

Lemma quiz_page_has_its_question_witness :
  reachable latinLowerCase parseNullOrEmptyArray (run latinLowerCase untilFirstQuestion firstPage)
  /\ quizState (app (run latinLowerCase untilFirstQuestion firstPage)) = Active
  /\ handleAnswerSubmit latinLowerCase (app (run latinLowerCase untilFirstQuestion firstPage))
     <> None.
Proof.
  split; [apply firstPage_reachable|]. split; [reflexivity|].
  destruct (quiz_page_has_its_question latinLowerCase parseNullOrEmptyArray
              (run latinLowerCase untilFirstQuestion firstPage)
              (firstPage_reachable _ _ _) (or_introl eq_refl)) as (_ & Hsubmit & _).
  exact Hsubmit.
Defined.

Lemma quizState_moves_witness :
  reachable latinLowerCase parseNullOrEmptyArray (run latinLowerCase untilLoading firstPage)
  /\ allowedTransition
       (quizState (app (run latinLowerCase untilLoading firstPage)))
       (quizState (app (dispatch latinLowerCase (QuestionsSettled Failed)
                                 (run latinLowerCase untilLoading firstPage)))) = true.
Proof.
  split; [apply firstPage_reachable|].
  exact (quizState_moves latinLowerCase parseNullOrEmptyArray (QuestionsSettled Failed)
           (run latinLowerCase untilLoading firstPage) (firstPage_reachable _ _ _)).
Defined.

Lemma table_changes_only_on_save_and_clear_witness :
  (forall now stored, PlayAgain <> SaveScore now stored) /\ PlayAgain <> ClearScores
  /\ highScores (app (dispatch latinLowerCase PlayAgain
                               (handleSaveScore 1700000000000 true finishedPage)))
     = highScores (app (handleSaveScore 1700000000000 true finishedPage))
  /\ localStorage (dispatch latinLowerCase PlayAgain
                            (handleSaveScore 1700000000000 true finishedPage))
     = localStorage (handleSaveScore 1700000000000 true finishedPage).
Proof.
  split; [discriminate|]. split; [discriminate|].
  exact (table_changes_only_on_save_and_clear latinLowerCase PlayAgain
           (handleSaveScore 1700000000000 true finishedPage)
           (fun now stored => ltac:(discriminate)) ltac:(discriminate)).
Defined.

Lemma one_hint_request_in_flight_witness :
  reachable latinLowerCase parseNullOrEmptyArray (run latinLowerCase untilLateHint firstPage)
  /\ (List.length (hintRequests (run latinLowerCase untilLateHint firstPage)) <= 1)%nat
  /\ (isHintLoading (app (run latinLowerCase untilLateHint firstPage)) = true
      <-> hintRequests (run latinLowerCase untilLateHint firstPage) <> []).
Proof.
  split; [apply firstPage_reachable|].
  destruct (one_hint_request_in_flight latinLowerCase parseNullOrEmptyArray
              (run latinLowerCase untilLateHint firstPage) (firstPage_reachable _ _ _))
    as (Hone & Hflag & _).
  split; [exact Hone|exact Hflag].
Defined.

Lemma loading_awaits_one_batch_witness :
  reachable latinLowerCase parseNullOrEmptyArray (run latinLowerCase untilLoading firstPage)
  /\ quizState (app (run latinLowerCase untilLoading firstPage)) = Loading
  /\ In (Geometry, Medium) (quizRequests (run latinLowerCase untilLoading firstPage))
  /\ category (app (run latinLowerCase untilLoading firstPage)) = Some Geometry
  /\ dispatch latinLowerCase PlayAgain (run latinLowerCase untilLoading firstPage)
     = run latinLowerCase untilLoading firstPage.
Proof.
  split; [apply firstPage_reachable|]. split; [reflexivity|]. split; [now left|].
  destruct (loading_awaits_one_batch latinLowerCase parseNullOrEmptyArray
              (run latinLowerCase untilLoading firstPage) (firstPage_reachable _ _ _))
    as (_ & _ & Hfor & Hidle).
  split.
  - apply (Hfor Geometry Medium). now left.
  - apply (Hidle eq_refl PlayAgain); discriminate.
Defined.

Lemma granted_hint_asks_about_current_question_witness :
  reachable latinLowerCase parseNullOrEmptyArray (run latinLowerCase untilFirstQuestion firstPage)
  /\ enabled GetHint (run latinLowerCase untilFirstQuestion firstPage) = true
  /\ exists q,
       index (questions (app (run latinLowerCase untilFirstQuestion firstPage)))
             (currentQuestionIndex (app (run latinLowerCase untilFirstQuestion firstPage)))
       = Some q
       /\ hintRequests (dispatch latinLowerCase GetHint
                                 (run latinLowerCase untilFirstQuestion firstPage))
          = [question q].
Proof.
  split; [apply firstPage_reachable|]. split; [reflexivity|].
  destruct (granted_hint_asks_about_current_question latinLowerCase parseNullOrEmptyArray
              (run latinLowerCase untilFirstQuestion firstPage)
              (firstPage_reachable _ _ _) eq_refl) as (q & Hq & Hreq & _).
  exists q. split; [exact Hq|exact Hreq].
Defined.

Lemma quiz_score_counts_right_answers_witness :
  reachable latinLowerCase parseNullOrEmptyArray (run latinLowerCase untilLoading firstPage)
  /\ quizState (app (run latinLowerCase untilLoading firstPage)) = Loading
  /\ Forall (fun a => trim a <> []) [lit " 4"; lit "square"]
  /\ score (app (run latinLowerCase
                     (QuestionsSettled (Parsed (Some twoQuestions))
                      :: quizRounds [lit " 4"; lit "square"])
                     (run latinLowerCase untilLoading firstPage)))
     = countCorrect latinLowerCase [lit " 4"; lit "square"] twoQuestions.
Proof.
  split; [apply firstPage_reachable|]. split; [reflexivity|].
  assert (Htyped : Forall (fun a => trim a <> []) [lit " 4"; lit "square"]).
  { repeat constructor; discriminate. }
  split; [exact Htyped|].
  destruct (quiz_score_counts_right_answers latinLowerCase parseNullOrEmptyArray
              (run latinLowerCase untilLoading firstPage) twoQuestions
              [lit " 4"; lit "square"] (firstPage_reachable _ _ _) eq_refl
              ltac:(discriminate) eq_refl Htyped) as (_ & _ & Hscore & _).
  exact Hscore.
Defined.

Lemma save_records_the_quiz_witness :
  reachable latinLowerCase parseNullOrEmptyArray (run latinLowerCase oneQuestionQuiz firstPage)
  /\ quizState (app (run latinLowerCase oneQuestionQuiz firstPage)) = Finished
  /\ scoreSaved (app (run latinLowerCase oneQuestionQuiz firstPage)) = false
  /\ scoreSaved (app (dispatch latinLowerCase (SaveScore 1700000000000 true)
                               (run latinLowerCase oneQuestionQuiz firstPage))) = true.
Proof.
  split; [apply firstPage_reachable|]. split; [reflexivity|]. split; [reflexivity|].
  destruct (save_records_the_quiz latinLowerCase parseNullOrEmptyArray
              (run latinLowerCase oneQuestionQuiz firstPage) 1700000000000
              (firstPage_reachable _ _ _) eq_refl eq_refl)
    as (c & d & _ & _ & _ & _ & Hsaved & _).
  exact Hsaved.
Defined.

Lemma failed_write_leaves_save_open_witness :
  reachable latinLowerCase parseNullOrEmptyArray (run latinLowerCase oneQuestionQuiz firstPage)
  /\ quizState (app (run latinLowerCase oneQuestionQuiz firstPage)) = Finished
  /\ scoreSaved (app (run latinLowerCase oneQuestionQuiz firstPage)) = false
  /\ enabled (SaveScore 1700000000900 true)
             (dispatch latinLowerCase (SaveScore 1700000000000 false)
                       (run latinLowerCase oneQuestionQuiz firstPage)) = true.
Proof.
  split; [apply firstPage_reachable|]. split; [reflexivity|]. split; [reflexivity|].
  destruct (failed_write_leaves_save_open latinLowerCase parseNullOrEmptyArray
              (run latinLowerCase oneQuestionQuiz firstPage) 1700000000000 1700000000900
              (firstPage_reachable _ _ _) eq_refl eq_refl)
    as (c & d & _ & _ & _ & _ & Hopen & _).
  exact Hopen.
Defined.

Lemma late_hint_lands_on_next_question_witness :
  reachable latinLowerCase parseNullOrEmptyArray (run latinLowerCase untilLateHint firstPage)
  /\ quizState (app (run latinLowerCase untilLateHint firstPage)) = Feedback
  /\ hintRequests (run latinLowerCase untilLateHint firstPage) <> []
  /\ hint (app (run latinLowerCase [NextQuestion; HintSettled (Some (lit "Add the twos."))]
                    (run latinLowerCase untilLateHint firstPage)))
     = Some (lit "Add the twos.").
Proof.
  split; [apply firstPage_reachable|]. split; [reflexivity|]. split; [discriminate|].
  destruct (late_hint_lands_on_next_question latinLowerCase parseNullOrEmptyArray
              (run latinLowerCase untilLateHint firstPage) (lit "Add the twos.")
              (firstPage_reachable _ _ _) eq_refl ltac:(reflexivity) ltac:(discriminate))
    as (_ & _ & Hhint & _).
  exact Hhint.
Defined.

Lemma back_undoes_category_choice_witness :
  quizState (app firstPage) = Idle /\ category (app firstPage) = None
  /\ dispatch latinLowerCase BackToCategories
       (dispatch latinLowerCase (SelectCategory Mixed) firstPage) = firstPage.
Proof.
  split; [reflexivity|]. split; [reflexivity|].
  destruct (back_undoes_category_choice latinLowerCase firstPage Mixed eq_refl eq_refl)
    as (_ & _ & Hback).
  exact Hback.
Defined.
